(** * Service registry client (agent/service_registry.py)

    A shallow embedding of [ServiceRegistryClient]: registration, the
    heartbeat sender, shutdown, the start/stop pair of the background
    heartbeat loop, and the loop itself.

    Python objects are modelled by the type [py]; a method of the client
    is a function in the monad [M], which threads the [World] (the
    client's attributes, the thread table, the scripted registry server
    and the log of observable events) and may raise an exception.
    Assignments made before an exception is raised stay in the world,
    as in Python. *)

From Stdlib Require Import ZArith String List Bool Lia.
From Stdlib Require Import Floats.SpecFloat.
From stdpp Require Import base option gmap strings list fin_maps.

Local Open Scope string_scope.
Local Open Scope Z_scope.
Local Set Warnings "-register-all".

(** ** Python values *)

(** IEEE 754 binary64, the format of a Python [float]. *)
Definition prec : Z := 53.
Definition emax : Z := 1024.

Definition float_of_Z (z : Z) : spec_float := binary_normalize prec emax z 0 false.

(** The values that travel through the client: what [response.json()]
    yields, what [asdict] builds, and the object [utcnow()] would give. *)
Inductive py : Type :=
| PNone
| PBool (b : bool)
| PInt (z : Z)
| PFloat (f : spec_float)
| PStr (s : string)
| PList (l : list py)
| PDict (d : gmap string py)
| PDatetime (iso : string).

(** [bool(v)], as used by [if not self.service_id] and [if self._x:]. *)
Definition truthy (v : py) : bool :=
  match v with
  | PNone => false
  | PBool b => b
  | PInt z => negb (z =? 0)
  | PFloat (S754_zero _) => false
  | PFloat _ => true
  | PStr s => negb (String.eqb s "")
  | PList l => match l with [] => false | _ => true end
  | PDict d => negb (bool_decide (d = ∅))
  | PDatetime _ => true
  end.

(** Exact comparison of a float with an integer, as Python's [==] does. *)
Definition float_eq_Z (f : spec_float) (z : Z) : bool :=
  match f with
  | S754_zero _ => z =? 0
  | S754_finite s m e =>
      let v := if s then Z.neg m else Z.pos m in
      if 0 <=? e then v * 2 ^ e =? z
      else (v mod 2 ^ (- e) =? 0) && (v / 2 ^ (- e) =? z)
  | _ => false
  end.

(** [v == z] for an integer literal [z]: [bool] is a subclass of [int],
    and a float compares by value. *)
Definition eq_int (v : py) (z : Z) : bool :=
  match v with
  | PBool b => Z.b2z b =? z
  | PInt n => n =? z
  | PFloat f => float_eq_Z f z
  | _ => false
  end.

(** [v == s] for a string literal [s]. *)
Definition eq_str (v : py) (s : string) : bool :=
  match v with
  | PStr t => String.eqb t s
  | _ => false
  end.

(** Name of the class of a value, for error messages. *)
Definition type_name (v : py) : string :=
  match v with
  | PNone => "NoneType"
  | PBool _ => "bool"
  | PInt _ => "int"
  | PFloat _ => "float"
  | PStr _ => "str"
  | PList _ => "list"
  | PDict _ => "dict"
  | PDatetime _ => "datetime"
  end.

(** ** Exceptions *)

Inductive exn : Type :=
| RuntimeError (msg : string)
| AttributeError (obj attr : string)
| KeyError (key : string)
| TypeError (msg : string)
| OverflowError (msg : string)
| gaierror                          (* socket.gethostbyname *)
| RequestException (kind : string)  (* requests: ConnectionError, Timeout, ... *)
| HTTPError (status : Z)            (* response.raise_for_status() *)
| JSONDecodeError                   (* response.json() *)
| Raised (name : string) (is_exception : bool).  (* raised by caller-supplied code *)

(** [isinstance(e, Exception)]: what [except Exception] catches. Only
    caller-supplied code can raise something else ([SystemExit],
    [KeyboardInterrupt]). *)
Definition is_Exception (e : exn) : bool :=
  match e with
  | Raised _ b => b
  | _ => true
  end.

Inductive Res (A : Type) : Type :=
| Ok (a : A)
| Raise (e : exn).
Arguments Ok {A} a.
Arguments Raise {A} e.

(** ** Python operations on values *)

(** [obj[key]] for a string key. *)
Definition getitem (obj : py) (key : string) : Res py :=
  match obj with
  | PDict d => match d !! key with
               | Some v => Ok v
               | None => Raise (KeyError key)
               end
  | PStr _ => Raise (TypeError "string indices must be integers")
  | PList _ => Raise (TypeError "list indices must be integers or slices, not str")
  | _ => Raise (TypeError "object is not subscriptable")
  end.

(** [obj.get(key)]: only a dict has the method. *)
Definition get (obj : py) (key : string) : Res py :=
  match obj with
  | PDict d => Ok (default PNone (d !! key))
  | _ => Raise (AttributeError (type_name obj) "get")
  end.

(** [kwargs.get(key, dflt)] on the keyword dictionary of a call. *)
Definition kwargs_get (kwargs : gmap string py) (key : string) (dflt : py) : py :=
  default dflt (kwargs !! key).

(** ** The dataclasses sent at registration *)

Record ServiceCapabilities := {
  supported_models : list string;
  supported_resolutions : list string;
  max_batch_size : Z;
  supported_formats : list string;
  inference_steps_range : list Z;
  guidance_scale_range : list spec_float;
  custom_capabilities : gmap string py
}.

Definition ServiceCapabilities_default : ServiceCapabilities := {|
  supported_models := [];
  supported_resolutions := [];
  max_batch_size := 4;
  supported_formats := ["png"; "jpeg"];
  inference_steps_range := [10; 100];
  guidance_scale_range := [float_of_Z 1; float_of_Z 20];
  custom_capabilities := ∅
|}.

Record ResourceSpec := {
  gpu_memory : string;
  gpu_count : Z;
  gpu_model : string;
  cpu_cores : Z;
  memory : string
}.

Definition ResourceSpec_default : ResourceSpec := {|
  gpu_memory := "16GB"; gpu_count := 1; gpu_model := "A10";
  cpu_cores := 8; memory := "32GB"
|}.

Record PerformanceSpec := {
  estimated_latency_ms : Z;
  throughput_per_minute : Z;
  warmup_time_seconds : Z
}.

Definition PerformanceSpec_default : PerformanceSpec := {|
  estimated_latency_ms := 2000;
  throughput_per_minute := 30;
  warmup_time_seconds := 60
|}.

(** [dataclasses.asdict] on the three specifications. *)
Definition asdict_ServiceCapabilities (c : ServiceCapabilities) : py :=
  PDict (list_to_map [
    ("supported_models", PList (PStr <$> supported_models c));
    ("supported_resolutions", PList (PStr <$> supported_resolutions c));
    ("max_batch_size", PInt (max_batch_size c));
    ("supported_formats", PList (PStr <$> supported_formats c));
    ("inference_steps_range", PList (PInt <$> inference_steps_range c));
    ("guidance_scale_range", PList (PFloat <$> guidance_scale_range c));
    ("custom_capabilities", PDict (custom_capabilities c)) ]).

Definition asdict_ResourceSpec (r : ResourceSpec) : py :=
  PDict (list_to_map [
    ("gpu_memory", PStr (gpu_memory r));
    ("gpu_count", PInt (gpu_count r));
    ("gpu_model", PStr (gpu_model r));
    ("cpu_cores", PInt (cpu_cores r));
    ("memory", PStr (memory r)) ]).

Definition asdict_PerformanceSpec (p : PerformanceSpec) : py :=
  PDict (list_to_map [
    ("estimated_latency_ms", PInt (estimated_latency_ms p));
    ("throughput_per_minute", PInt (throughput_per_minute p));
    ("warmup_time_seconds", PInt (warmup_time_seconds p)) ]).

(** ** The client object and the world around it *)

(** Attributes of a [ServiceRegistryClient]. A hook is a callable named
    by a number; what calling it does is given by the [Runtime]. The
    [threading.Event] is its flag; the thread is its identifier. *)
Record Client := mkClient {
  server_url : string;
  service_id : py;
  heartbeat_interval : py;
  token : py;
  _running : bool;
  _thread : option nat;
  _stop_event : bool;
  capabilities : ServiceCapabilities;
  resources : ResourceSpec;
  performance : PerformanceSpec;
  on_config_update : option nat;
  on_shutdown : option nat
}.

(** What the registry server does with one request. *)
Inductive Outcome : Type :=
| NetFail (kind : string)                    (* no response: connection error, timeout *)
| NetResp (status : Z) (body : option py).   (* body: [None] when it is not JSON *)

Record Response := { status_code : Z; json_body : option py }.

(** Where a thread running [_heartbeat_loop] stands. *)
Inductive pc : Type :=
| AtTest       (* about to evaluate [while self._running] *)
| InTry        (* about to run the [try: self.heartbeat()] statement *)
| AtWait       (* about to call [self._stop_event.wait(...)] *)
| Dead.        (* returned from the loop, or killed by an exception *)

Inductive Shown : Type :=
| ShownNothing
| ShownExn (e : exn)
| ShownPy (v : py).

(** Observable events, newest first in the log. *)
Inductive Event : Type :=
| EvPost (url : string) (body : py) (timeout : Z)
| EvPrint (text : string) (arg : Shown)
| EvThreadStart (t : nat)
| EvJoin (t : nat) (timeout : Z)
| EvWait (timeout : py)
| EvHook (h : nat) (args : list py).

Record World := mkWorld {
  client : Client;
  current_thread : nat;        (* the thread executing the method *)
  threads : gmap nat pc;       (* the threads started by [start_heartbeat_loop] *)
  next_tid : nat;
  net : list Outcome;          (* the server's answers to the coming requests *)
  probes : nat;                (* metric readings taken so far *)
  log : list Event
}.

(** A method body: a world transformer that returns or raises. *)
Definition M (A : Type) : Type := World -> Res A * World.

Definition ret {A} (a : A) : M A := fun w => (Ok a, w).
Definition raise {A} (e : exn) : M A := fun w => (Raise e, w).
Definition bind {A B} (m : M A) (k : A -> M B) : M B :=
  fun w => match m w with
           | (Ok a, w') => k a w'
           | (Raise e, w') => (Raise e, w')
           end.
Definition lift {A} (r : Res A) : M A := fun w => (r, w).

Notation "'let*' x ':=' m 'in' k" := (bind m (fun x => k))
  (at level 10, x name, m at level 100, k at level 200).

(** [try: body except Exception as e: handler(e)]. *)
Definition try_except {A} (body : M A) (handler : exn -> M A) : M A :=
  fun w => match body w with
           | (Raise e, w') => if is_Exception e then handler e w' else (Raise e, w')
           | r => r
           end.

Definition get_client : M Client := fun w => (Ok (client w), w).

Definition modify_client (f : Client -> Client) : M unit := fun w =>
  (Ok tt, mkWorld (f (client w)) (current_thread w) (threads w) (next_tid w)
                  (net w) (probes w) (log w)).

Definition emit (ev : Event) : M unit := fun w =>
  (Ok tt, mkWorld (client w) (current_thread w) (threads w) (next_tid w)
                  (net w) (probes w) (ev :: log w)).

Definition print (text : string) (arg : Shown) : M unit := emit (EvPrint text arg).

Definition set_service_id (v : py) (c : Client) : Client :=
  mkClient (server_url c) v (heartbeat_interval c) (token c) (_running c) (_thread c)
           (_stop_event c) (capabilities c) (resources c) (performance c)
           (on_config_update c) (on_shutdown c).
Definition set_heartbeat_interval (v : py) (c : Client) : Client :=
  mkClient (server_url c) (service_id c) v (token c) (_running c) (_thread c)
           (_stop_event c) (capabilities c) (resources c) (performance c)
           (on_config_update c) (on_shutdown c).
Definition set_token (v : py) (c : Client) : Client :=
  mkClient (server_url c) (service_id c) (heartbeat_interval c) v (_running c) (_thread c)
           (_stop_event c) (capabilities c) (resources c) (performance c)
           (on_config_update c) (on_shutdown c).
Definition set_running (b : bool) (c : Client) : Client :=
  mkClient (server_url c) (service_id c) (heartbeat_interval c) (token c) b (_thread c)
           (_stop_event c) (capabilities c) (resources c) (performance c)
           (on_config_update c) (on_shutdown c).
Definition set_thread (t : option nat) (c : Client) : Client :=
  mkClient (server_url c) (service_id c) (heartbeat_interval c) (token c) (_running c) t
           (_stop_event c) (capabilities c) (resources c) (performance c)
           (on_config_update c) (on_shutdown c).
Definition set_stop_event (b : bool) (c : Client) : Client :=
  mkClient (server_url c) (service_id c) (heartbeat_interval c) (token c) (_running c)
           (_thread c) b (capabilities c) (resources c) (performance c)
           (on_config_update c) (on_shutdown c).

(** ** The runtime around the client *)

(** What [GPUtil] does when probed. *)
Inductive GpuProbe : Type :=
| GpuImportError                    (* the package is not installed *)
| GpuFails                          (* [getGPUs()] raises *)
| GpuLoads (loads : list spec_float).  (* the [load] of each GPU found *)

(** The interpreter, the operating system and the caller's hooks: the
    collaborators the module imports or is handed. [time_dir] lists the
    names bound in the standard module [time], [time_call] gives the
    value that calling one of them with no argument returns. *)
Record Runtime := {
  getenv : string -> option string;
  gethostname : string;
  gethostbyname : string -> option string;
  time_dir : list string;
  time_call : string -> py;
  cpu_percent : nat -> spec_float;       (* psutil.cpu_percent(), by reading *)
  virtual_memory_used : nat -> Z;        (* psutil.virtual_memory().used *)
  GPUtil : nat -> GpuProbe;
  timeout_too_large : py -> bool;        (* beyond threading.TIMEOUT_MAX *)
  call_hook : nat -> list py -> World -> Res unit * World
}.

(** The names of module [time] in CPython 3: clocks, conversions and
    constants. There is no [utcnow] among them (that is a class method of
    [datetime.datetime]). *)
Definition cpython_time_dir : list string :=
  [ "altzone"; "asctime"; "clock_getres"; "clock_gettime"; "clock_gettime_ns";
    "clock_settime"; "clock_settime_ns"; "ctime"; "daylight"; "get_clock_info";
    "gmtime"; "localtime"; "mktime"; "monotonic"; "monotonic_ns";
    "perf_counter"; "perf_counter_ns"; "process_time"; "process_time_ns";
    "pthread_getcpuclockid"; "sleep"; "strftime"; "strptime"; "struct_time";
    "thread_time"; "thread_time_ns"; "time"; "time_ns"; "timezone"; "tzname";
    "tzset" ].

Definition string_in (s : string) (l : list string) : bool :=
  existsb (String.eqb s) l.

(** ** HTTP transport ([requests]) *)

(** [requests.post(url, json=body, timeout=t)]: the request is recorded
    and the server's next answer consumed; a server that has no answer
    left is unreachable. *)
Definition requests_post (url : string) (body : py) (timeout : Z) : M Response :=
  fun w =>
    let w' o := mkWorld (client w) (current_thread w) (threads w) (next_tid w)
                        o (probes w) (EvPost url body timeout :: log w) in
    match net w with
    | [] => (Raise (RequestException "ConnectionError"), w' [])
    | NetFail kind :: rest => (Raise (RequestException kind), w' rest)
    | NetResp status body :: rest =>
        (Ok {| status_code := status; json_body := body |}, w' rest)
    end.

(** [response.raise_for_status()]: client and server errors raise. *)
Definition raise_for_status (r : Response) : M unit :=
  if (400 <=? status_code r) && (status_code r <? 600)
  then raise (HTTPError (status_code r))
  else ret tt.

(** [response.json()]. *)
Definition response_json (r : Response) : M py :=
  match json_body r with
  | Some v => ret v
  | None => raise JSONDecodeError
  end.

(** ** RegisterRequest *)

Record RegisterRequest := {
  rr_service_type : string;
  rr_version : string;
  rr_hostname : py;
  rr_ip_address : py;
  rr_port : py;
  rr_capabilities : ServiceCapabilities;
  rr_resources : ResourceSpec;
  rr_performance : PerformanceSpec
}.

(** Keywords of [RegisterRequest] that [register] does not pass itself. *)
Definition RegisterRequest_free_fields : list string :=
  ["hostname"; "ip_address"; "port"].

(** Keywords [register] passes itself: giving one again in [**kwargs] is
    a [TypeError] (multiple values for a keyword argument). *)
Definition RegisterRequest_bound_fields : list string :=
  ["capabilities"; "resources"; "performance"].

Definition check_kwargs (kwargs : gmap string py) : Res unit :=
  match filter (fun k => negb (string_in k RegisterRequest_free_fields))
               (map_to_list kwargs).*1 with
  | [] => Ok tt
  | k :: _ =>
      if string_in k RegisterRequest_bound_fields
      then Raise (TypeError "got multiple values for keyword argument")
      else Raise (TypeError "got an unexpected keyword argument")
  end.

Section WithRuntime.

Variable rt : Runtime.

(** [RegisterRequest(...)] followed by its [__post_init__]. *)
Definition RegisterRequest_new (service_type version : string)
    (caps : ServiceCapabilities) (res : ResourceSpec) (perf : PerformanceSpec)
    (kwargs : gmap string py) : M RegisterRequest :=
  let* _ := lift (check_kwargs kwargs) in
  let hostname := kwargs_get kwargs "hostname" (PStr "") in
  let ip_address := kwargs_get kwargs "ip_address" (PStr "") in
  let port := kwargs_get kwargs "port" (PInt 8080) in
  let hostname := if eq_str hostname "" then PStr (gethostname rt) else hostname in
  let* ip_address :=
    if eq_str ip_address "" then
      match hostname with
      | PStr h => match gethostbyname rt h with
                  | Some ip => ret (PStr ip)
                  | None => raise gaierror
                  end
      | _ => raise (TypeError "gethostbyname() argument 1 must be str")
      end
    else ret ip_address in
  ret {| rr_service_type := service_type; rr_version := version;
         rr_hostname := hostname; rr_ip_address := ip_address; rr_port := port;
         rr_capabilities := caps; rr_resources := res; rr_performance := perf |}.

Definition asdict_RegisterRequest (r : RegisterRequest) : py :=
  PDict (list_to_map [
    ("service_type", PStr (rr_service_type r));
    ("version", PStr (rr_version r));
    ("hostname", rr_hostname r);
    ("ip_address", rr_ip_address r);
    ("port", rr_port r);
    ("capabilities", asdict_ServiceCapabilities (rr_capabilities r));
    ("resources", asdict_ResourceSpec (rr_resources r));
    ("performance", asdict_PerformanceSpec (rr_performance r)) ]).

(** ** ServiceRegistryClient *)

Definition default_server_url : string :=
  "http://service-registry.ai-platform.svc.cluster.local:80".

(** [ServiceRegistryClient.__init__]: [x or default] takes the default
    for an absent argument and for an empty URL. *)
Definition ServiceRegistryClient_init (url : option string)
    (caps : option ServiceCapabilities) (res : option ResourceSpec)
    (perf : option PerformanceSpec) : Client :=
  {| server_url :=
       match url with
       | Some u => if String.eqb u "" then default default_server_url (getenv rt "SERVICE_REGISTRY_URL") else u
       | None => default default_server_url (getenv rt "SERVICE_REGISTRY_URL")
       end;
     service_id := PNone;
     heartbeat_interval := PInt 30;
     token := PStr "";
     _running := false;
     _thread := None;
     _stop_event := false;
     capabilities := default ServiceCapabilities_default caps;
     resources := default ResourceSpec_default res;
     performance := default PerformanceSpec_default perf;
     on_config_update := None;
     on_shutdown := None |}.

(** Lines 145-153: what [register] does with the response. *)
Definition register_response (response : Response) : M py :=
  let* _ := raise_for_status response in
  let* data := response_json response in
  let* code := lift (get data "code") in
  let* _ :=
    if eq_int code 0 then
      let* d := lift (getitem data "data") in
      let* v := lift (getitem d "service_id") in
      let* _ := modify_client (set_service_id v) in
      let* d := lift (getitem data "data") in
      let* v := lift (getitem d "heartbeat_interval") in
      let* _ := modify_client (set_heartbeat_interval v) in
      let* d := lift (getitem data "data") in
      let* v := lift (getitem d "token") in
      modify_client (set_token v)
    else ret tt in
  lift (getitem data "data").

Definition register (service_type version : string) (kwargs : gmap string py) : M py :=
  let* self := get_client in
  let* request := RegisterRequest_new service_type version (capabilities self)
                    (resources self) (performance self) kwargs in
  let* response := requests_post (String.append (server_url self) "/api/v1/services/register")
                     (asdict_RegisterRequest request) 10 in
  register_response response.

(** ** Metrics *)

(** Every reading of a metric is taken at the next probe index. *)
Definition next_probe : M nat := fun w =>
  (Ok (probes w), mkWorld (client w) (current_thread w) (threads w) (next_tid w)
                          (net w) (S (probes w)) (log w)).

Definition psutil_cpu_percent : M spec_float :=
  let* i := next_probe in ret (cpu_percent rt i).

Definition psutil_virtual_memory_used : M Z :=
  let* i := next_probe in ret (virtual_memory_used rt i).

(** [_get_gpu_utilization]: the load of the first GPU as a percentage;
    0.0 when there is no GPU, no [GPUtil], or the probe raises. *)
Definition _get_gpu_utilization : M spec_float :=
  let* i := next_probe in
  match GPUtil rt i with
  | GpuLoads (load :: _) => ret (SFmul prec emax load (float_of_Z 100))
  | GpuLoads [] => ret (S754_zero false)
  | GpuImportError => ret (S754_zero false)
  | GpuFails => ret (S754_zero false)
  end.

(** ** HeartbeatRequest *)

Record HeartbeatRequest := {
  hr_service_id : py;
  hr_timestamp : py;
  hr_current_load : spec_float;
  hr_queue_size : py;
  hr_processed_count : py;
  hr_error_count : py;
  hr_cpu_utilization : spec_float;
  hr_gpu_utilization : spec_float;
  hr_memory_usage : Z;
  hr_token : py
}.

(** [obj.isoformat()]. *)
Definition isoformat (obj : py) : Res py :=
  match obj with
  | PDatetime iso => Ok (PStr iso)
  | _ => Raise (AttributeError (type_name obj) "isoformat")
  end.

(** [time.<name>()]: attribute lookup in module [time], then the call. *)
Definition time_attr_call (name : string) : Res py :=
  if string_in name (time_dir rt) then Ok (time_call rt name)
  else Raise (AttributeError "module" name).

(** [HeartbeatRequest(...)] as [heartbeat] calls it, with the timestamp
    left at its default, followed by [__post_init__] (lines 79-81). *)
Definition HeartbeatRequest_new (sid : py) (current_load : spec_float)
    (queue_size processed_count error_count : py)
    (cpu_utilization gpu_utilization : spec_float) (memory_usage : Z)
    (tok : py) : M HeartbeatRequest :=
  let timestamp := PStr "" in
  let* timestamp :=
    if eq_str timestamp "" then
      let* now := lift (time_attr_call "utcnow") in
      lift (isoformat now)
    else ret timestamp in
  ret {| hr_service_id := sid; hr_timestamp := timestamp;
         hr_current_load := current_load; hr_queue_size := queue_size;
         hr_processed_count := processed_count; hr_error_count := error_count;
         hr_cpu_utilization := cpu_utilization;
         hr_gpu_utilization := gpu_utilization;
         hr_memory_usage := memory_usage; hr_token := tok |}.

Definition asdict_HeartbeatRequest (r : HeartbeatRequest) : py :=
  PDict (list_to_map [
    ("service_id", hr_service_id r);
    ("timestamp", hr_timestamp r);
    ("current_load", PFloat (hr_current_load r));
    ("queue_size", hr_queue_size r);
    ("processed_count", hr_processed_count r);
    ("error_count", hr_error_count r);
    ("cpu_utilization", PFloat (hr_cpu_utilization r));
    ("gpu_utilization", PFloat (hr_gpu_utilization r));
    ("memory_usage", PInt (hr_memory_usage r));
    ("token", hr_token r) ]).

(** ** Threads *)

Definition set_pc (t : nat) (p : pc) (w : World) : World :=
  mkWorld (client w) (current_thread w) (<[t := p]> (threads w)) (next_tid w)
          (net w) (probes w) (log w).

(** [threading.Thread(target=self._heartbeat_loop, daemon=True)]. *)
Definition Thread_new : M nat := fun w =>
  (Ok (next_tid w), mkWorld (client w) (current_thread w) (threads w) (S (next_tid w))
                            (net w) (probes w) (log w)).

(** [thread.start()]: the new thread stands at the loop's test. *)
Definition Thread_start (t : nat) : M unit := fun w =>
  (Ok tt, set_pc t AtTest
            (mkWorld (client w) (current_thread w) (threads w) (next_tid w)
                     (net w) (probes w) (EvThreadStart t :: log w))).

(** [thread.join(timeout)]: joining the calling thread itself raises;
    joining another thread returns when that thread has ended or when
    the timeout has run out, with the thread possibly still alive. *)
Definition Thread_join (t : nat) (timeout : Z) : M unit := fun w =>
  if Nat.eqb t (current_thread w)
  then (Raise (RuntimeError "cannot join current thread"), w)
  else emit (EvJoin t timeout) w.

(** ** The heartbeat loop's switches *)

Definition start_heartbeat_loop : M unit :=
  let* self := get_client in
  if _running self then ret tt
  else
    let* _ := modify_client (set_running true) in
    let* _ := modify_client (set_stop_event false) in
    let* t := Thread_new in
    let* _ := modify_client (set_thread (Some t)) in
    Thread_start t.

Definition stop_heartbeat_loop : M unit :=
  let* self := get_client in
  if negb (_running self) then ret tt
  else
    let* _ := modify_client (set_running false) in
    let* _ := modify_client (set_stop_event true) in
    let* self := get_client in
    match _thread self with
    | Some t => Thread_join t 5
    | None => ret tt
    end.

(** ** Signal handlers *)

Definition invoke_hook (h : nat) (args : list py) : M unit :=
  let* _ := emit (EvHook h args) in
  call_hook rt h args.

Definition _handle_config_update (config_update : py) : M unit :=
  let* self := get_client in
  match on_config_update self with
  | Some h => invoke_hook h [config_update]
  | None => print "Config update received: " (ShownPy config_update)
  end.

Definition _handle_drain_request : M unit :=
  let* self := get_client in
  match on_shutdown self with
  | Some h => invoke_hook h []
  | None =>
      let* _ := print "Drain requested, shutting down gracefully..." ShownNothing in
      stop_heartbeat_loop
  end.

(** ** heartbeat and shutdown *)

(** Lines 186-198: what [heartbeat] does with the response. *)
Definition heartbeat_response (response : Response) : M py :=
  let* _ := raise_for_status response in
  let* data := response_json response in
  let* code := lift (get data "code") in
  let* _ :=
    if eq_int code 0 then
      let* heartbeat_data := lift (getitem data "data") in
      let* cu := lift (get heartbeat_data "config_update") in
      let* _ :=
        if truthy cu then
          let* cu := lift (getitem heartbeat_data "config_update") in
          _handle_config_update cu
        else ret tt in
      let* dr := lift (get heartbeat_data "drain_requested") in
      if truthy dr then _handle_drain_request else ret tt
    else ret tt in
  lift (getitem data "data").

(** Lines 169-179: the metrics are read in the order of the keyword
    arguments, then the request object is built. *)
Definition heartbeat_request (kwargs : gmap string py) : M HeartbeatRequest :=
  let* self := get_client in
  let* load := psutil_cpu_percent in
  let current_load := SFdiv prec emax load (float_of_Z 100) in
  let queue_size := kwargs_get kwargs "queue_size" (PInt 0) in
  let processed_count := kwargs_get kwargs "processed_count" (PInt 0) in
  let error_count := kwargs_get kwargs "error_count" (PInt 0) in
  let* cpu_utilization := psutil_cpu_percent in
  let* gpu_utilization := _get_gpu_utilization in
  let* memory_usage := psutil_virtual_memory_used in
  HeartbeatRequest_new (service_id self) current_load queue_size processed_count
    error_count cpu_utilization gpu_utilization memory_usage (token self).

Definition heartbeat (kwargs : gmap string py) : M py :=
  let* self := get_client in
  if negb (truthy (service_id self)) then raise (RuntimeError "Service not registered")
  else
    let* request := heartbeat_request kwargs in
    let* response := requests_post (String.append (server_url self) "/api/v1/services/heartbeat")
                       (asdict_HeartbeatRequest request) 5 in
    heartbeat_response response.

Definition shutdown (reason : string) : M py :=
  let* self := get_client in
  if negb (truthy (service_id self)) then raise (RuntimeError "Service not registered")
  else
    let request := PDict (list_to_map [("service_id", service_id self);
                                       ("reason", PStr reason)]) in
    let* response := requests_post (String.append (server_url self) "/api/v1/services/shutdown")
                       request 5 in
    let* _ := raise_for_status response in
    let* body := response_json response in
    lift (getitem body "data").

(** [__exit__]. *)
Definition client_exit : M unit := stop_heartbeat_loop.

(** ** The heartbeat loop *)

Inductive Waited : Type :=
| Woken (flag : bool)   (* the wait returned: the event's flag, or the timeout ran out *)
| Blocked.              (* no timeout and the event is clear: asleep until it is set *)

(** [self._stop_event.wait(timeout)]. A set event returns at once,
    whatever the timeout is; otherwise the timeout is compared with 0
    and handed to the lock, which rejects what is not a number or is too
    large. *)
Definition Event_wait (timeout : py) : M Waited :=
  let* self := get_client in
  if _stop_event self then ret (Woken true)
  else
    match timeout with
    | PNone => ret Blocked
    | PBool _ | PInt _ | PFloat _ =>
        if timeout_too_large rt timeout
        then raise (OverflowError "timeout value is too large")
        else let* _ := emit (EvWait timeout) in ret (Woken false)
    | _ => raise (TypeError "'>' not supported between instances")
    end.

(** Lines 251-254: one heartbeat attempt of the loop. *)
Definition loop_try : M unit :=
  try_except (let* _ := heartbeat ∅ in ret tt)
             (fun e => print "Heartbeat failed: " (ShownExn e)).

(** Line 257. *)
Definition loop_wait : M Waited :=
  let* self := get_client in
  Event_wait (heartbeat_interval self).

Inductive LoopEnd : Type :=
| Finished        (* the test [self._running] failed: the method returned *)
| Sleeping        (* blocked in a wait without timeout *)
| StillLooping.   (* back at the test, with the given number of passes done *)

(** [_heartbeat_loop], run for at most [passes] passes of the [while]
    body by the current thread alone. *)
Fixpoint _heartbeat_loop (passes : nat) : M LoopEnd :=
  match passes with
  | O => ret StillLooping
  | S n =>
      let* self := get_client in
      if _running self then
        let* _ := loop_try in
        let* wk := loop_wait in
        match wk with
        | Woken _ => _heartbeat_loop n
        | Blocked => ret Sleeping
        end
      else ret Finished
  end.

(** ** Interleaving the caller with the loop threads *)

(** Run a method as thread [t]. *)
Definition as_thread {A} (t : nat) (m : M A) : M A := fun w =>
  let '(r, w') := m (mkWorld (client w) t (threads w) (next_tid w)
                             (net w) (probes w) (log w)) in
  (r, mkWorld (client w') (current_thread w) (threads w') (next_tid w')
              (net w') (probes w') (log w')).

(** One step of loop thread [t]: from the test into the [try], from the
    [try] to the wait, from the wait back to the test. An exception that
    leaves [_heartbeat_loop] ends the thread. *)
Definition loop_step (t : nat) (w : World) : World :=
  match threads w !! t with
  | Some AtTest =>
      if _running (client w) then set_pc t InTry w else set_pc t Dead w
  | Some InTry =>
      match as_thread t loop_try w with
      | (Ok _, w') => set_pc t AtWait w'
      | (Raise _, w') => set_pc t Dead w'
      end
  | Some AtWait =>
      match as_thread t loop_wait w with
      | (Ok (Woken _), w') => set_pc t AtTest w'
      | (Ok Blocked, w') => w'
      | (Raise _, w') => set_pc t Dead w'
      end
  | Some Dead | None => w
  end.

(** What happens next: the caller (the thread the world starts in) calls
    a switch of the loop, or a loop thread moves. *)
Inductive Action : Type :=
| CallStart
| CallStop
| Step (t : nat).

Definition act (a : Action) (w : World) : World :=
  match a with
  | CallStart => snd (start_heartbeat_loop w)
  | CallStop => snd (stop_heartbeat_loop w)
  | Step t => loop_step t w
  end.

Definition run (sched : list Action) (w : World) : World :=
  fold_left (fun w a => act a w) sched w.

End WithRuntime.

Definition alive (p : pc) : bool :=
  match p with Dead => false | _ => true end.

(** The heartbeat tasks that have been started and have not ended. *)
Definition active_loops (w : World) : list nat :=
  (List.filter (fun tp => alive tp.2) (map_to_list (threads w))).*1.

(** A world with a fresh client in it, run by the main thread 0. *)
Definition new_world (c : Client) (server : list Outcome) : World :=
  {| client := c; current_thread := 0%nat; threads := ∅; next_tid := 1%nat;
     net := server; probes := 0%nat; log := [] |}.

(** The requests sent so far. *)
Definition is_post (ev : Event) : bool :=
  match ev with EvPost _ _ _ => true | _ => false end.

Definition posts (w : World) : list Event := List.filter is_post (log w).

(** ** Two concrete runtimes *)

(** A CPython worker without [GPUtil], whose hooks return at once. *)
Definition host_runtime : Runtime := {|
  getenv := fun _ => None;
  gethostname := "worker-0";
  gethostbyname := fun h => if String.eqb h "worker-0" then Some "10.0.0.7" else None;
  time_dir := cpython_time_dir;
  time_call := fun _ => PFloat (float_of_Z 1700000000);
  cpu_percent := fun _ => float_of_Z 25;
  virtual_memory_used := fun _ => 8589934592;
  GPUtil := fun _ => GpuImportError;
  timeout_too_large := fun v => match v with PInt z => 9223372036 <? z | _ => false end;
  call_hook := fun _ _ w => (Ok tt, w)
|}.

(** The same worker under a test double that binds [time.utcnow] to
    [datetime.utcnow], so that a heartbeat request can be built. *)
Definition patched_runtime : Runtime := {|
  getenv := getenv host_runtime;
  gethostname := gethostname host_runtime;
  gethostbyname := gethostbyname host_runtime;
  time_dir := "utcnow" :: cpython_time_dir;
  time_call := fun name =>
    if String.eqb name "utcnow" then PDatetime "2024-05-01T12:00:00"
    else time_call host_runtime name;
  cpu_percent := cpu_percent host_runtime;
  virtual_memory_used := virtual_memory_used host_runtime;
  GPUtil := GPUtil host_runtime;
  timeout_too_large := timeout_too_large host_runtime;
  call_hook := call_hook host_runtime
|}.

Definition fresh_client : Client :=
  ServiceRegistryClient_init host_runtime None None None None.

(** The client after the registry has answered
    [{code: 0, data: {service_id: "svc-1", token: "tok-1", heartbeat_interval: 5}}]. *)
Definition identity_svc1 : gmap string py :=
  list_to_map [("service_id", PStr "svc-1"); ("token", PStr "tok-1");
               ("heartbeat_interval", PInt 5)].

Definition ok_body (data : py) : py :=
  PDict (list_to_map [("code", PInt 0); ("data", data)]).

Definition registered_client : Client :=
  set_token (PStr "tok-1")
    (set_heartbeat_interval (PInt 5) (set_service_id (PStr "svc-1") fresh_client)).

(** The precondition of [heartbeat] and [shutdown], [not self.service_id]. *)
Definition identity_absent (c : Client) : bool := negb (truthy (service_id c)).

(** [data.get("code") == 0] on a decoded body. *)
Definition code_is_zero (body : gmap string py) : bool :=
  eq_int (default PNone (body !! "code")) 0.

Definition rejection_body (data : py) : py :=
  PDict (list_to_map [("code", PInt 1); ("data", data)]).

(** An answer on which a heartbeat attempt raises before any signal is
    dispatched: no response at all, a client or server error status, a
    body that is not JSON or not an object, an object without ["data"],
    or a success whose ["data"] is not an object. *)
Definition failing_outcome (o : Outcome) : bool :=
  match o with
  | NetFail _ => true
  | NetResp status body =>
      ((400 <=? status) && (status <? 600)) ||
      match body with
      | None => true
      | Some (PDict d) =>
          match d !! "data" with
          | None => true
          | Some (PDict _) => false
          | Some _ => code_is_zero d
          end
      | Some _ => true
      end
  end.

(** An answer that succeeds and pushes no signal. *)
Definition quiet_success (o : Outcome) : bool :=
  match o with
  | NetResp status (Some (PDict d)) =>
      negb ((400 <=? status) && (status <? 600)) && code_is_zero d &&
      match d !! "data" with
      | Some (PDict hd) =>
          negb (truthy (default PNone (hd !! "config_update"))) &&
          negb (truthy (default PNone (hd !! "drain_requested")))
      | _ => false
      end
  | _ => false
  end.

(** The server's answer to the [i]-th coming request. *)
Definition answer (w : World) (i : nat) : Outcome :=
  nth i (net w) (NetFail "ConnectionError").

(** A heartbeat interval that [wait] accepts as a timeout. *)
Definition interval_ok (rt : Runtime) (v : py) : bool :=
  match v with
  | PBool _ | PInt _ | PFloat _ => negb (timeout_too_large rt v)
  | _ => false
  end.

Definition is_failure_print (ev : Event) : bool :=
  match ev with
  | EvPrint text (ShownExn _) => String.eqb text "Heartbeat failed: "
  | _ => false
  end.

(** The failed attempts the loop has reported. *)
Definition failures_logged (w : World) : nat :=
  length (List.filter is_failure_print (log w)).

(** The request of a heartbeat can be built: [time.utcnow] is bound and
    gives an object with [isoformat]. *)
Definition utcnow_bound (rt : Runtime) : bool :=
  string_in "utcnow" (time_dir rt) &&
  match time_call rt "utcnow" with PDatetime _ => true | _ => false end.

(** Two worlds that differ at most in the traffic with the server, the
    probe counter and the log, and report the same failures. *)
Definition same_loop_state (w w' : World) : Prop :=
  client w' = client w /\ current_thread w' = current_thread w /\
  threads w' = threads w /\ next_tid w' = next_tid w /\
  failures_logged w' = failures_logged w.

(** The world as loop thread 1 sees it once [start_heartbeat_loop] has
    been called on the registered client. *)
Definition loop_world (server : list Outcome) : World :=
  let w := snd (start_heartbeat_loop (new_world registered_client server)) in
  set_pc 1 InTry
    (mkWorld (client w) 1%nat (threads w) (next_tid w) (net w) (probes w) (log w)).

Definition three_failures_then_success : list Outcome :=
  [ NetFail "ConnectionError"; NetFail "Timeout"; NetResp 503 None;
    NetResp 200 (Some (ok_body (PDict ∅))) ].

Definition drain_answer : Outcome :=
  NetResp 200 (Some (ok_body (PDict (list_to_map [("drain_requested", PBool true)])))).

(** ** The client as a context manager *)

(** [__enter__]: the client itself. *)
Definition client_enter : M Client := get_client.

(** [with client: body]. [__exit__] runs on every way out of the body;
    it returns [None], so an exception of the body is raised again once
    it is done, unless [__exit__] raises itself. *)
Definition with_client {A} (body : M A) : M A := fun w =>
  match client_enter w with
  | (Raise e, w0) => (Raise e, w0)
  | (Ok _, w0) =>
      let '(r, w1) := body w0 in
      match client_exit w1 with
      | (Ok _, w2) => (r, w2)
      | (Raise e, w2) => (Raise e, w2)
      end
  end.

(** ** Vocabulary of the further properties *)

(** The exception an answer makes [requests] raise by itself: no
    response, an error status, or a body that is not JSON. *)
Definition transport_error (o : Outcome) : option exn :=
  match o with
  | NetFail kind => Some (RequestException kind)
  | NetResp status body =>
      if (400 <=? status) && (status <? 600) then Some (HTTPError status)
      else match body with
           | None => Some JSONDecodeError
           | Some _ => None
           end
  end.

(** The world once a request has gone out and its answer been taken. *)
Definition after_post (url : string) (body : py) (timeout : Z) (rest : list Outcome)
    (w : World) : World :=
  mkWorld (client w) (current_thread w) (threads w) (next_tid w) rest (probes w)
          (EvPost url body timeout :: log w).

Definition register_url (c : Client) : string :=
  String.append (server_url c) "/api/v1/services/register".
Definition heartbeat_url (c : Client) : string :=
  String.append (server_url c) "/api/v1/services/heartbeat".
Definition shutdown_url (c : Client) : string :=
  String.append (server_url c) "/api/v1/services/shutdown".

Definition shutdown_body (c : Client) (reason : string) : py :=
  PDict (list_to_map [("service_id", service_id c); ("reason", PStr reason)]).

(** What [_get_gpu_utilization] makes of a probe of [GPUtil]. *)
Definition fst_gpu_load (g : GpuProbe) : spec_float :=
  match g with
  | GpuLoads (load :: _) => SFmul prec emax load (float_of_Z 100)
  | _ => S754_zero false
  end.

(** No caller-supplied hook is registered. *)
Definition hooks_absent (c : Client) : Prop :=
  on_config_update c = None /\ on_shutdown c = None.

(** Two clients that differ at most in the two switches of the loop. *)
Definition same_but_switches (c c' : Client) : Prop :=
  server_url c' = server_url c /\ service_id c' = service_id c /\
  heartbeat_interval c' = heartbeat_interval c /\ token c' = token c /\
  _thread c' = _thread c /\ capabilities c' = capabilities c /\
  resources c' = resources c /\ performance c' = performance c /\
  on_config_update c' = on_config_update c /\ on_shutdown c' = on_shutdown c.

(** The loop has been told to stop. *)
Definition stop_requested (c : Client) : Prop :=
  _running c = false /\ _stop_event c = true.

(** A step in which all that can happen to the client is the stop of
    the loop: the flag goes down and the event up. *)
Definition switch_step (w w' : World) : Prop :=
  same_but_switches (client w) (client w') /\ threads w' = threads w /\
  (client w' = client w \/ (_running (client w) = true /\ stop_requested (client w'))).

(** A method that, on a client without hooks, does such steps only. *)
Definition keeps_client {A} (m : M A) : Prop :=
  forall w, hooks_absent (client w) -> switch_step w (snd (m w)).

(** ** Sample worlds of the further properties *)

Definition config_answer_body : gmap string py :=
  list_to_map [("code", PInt 0);
               ("data", PDict (list_to_map
                  [("config_update", PDict (list_to_map [("max_batch_size", PInt 2)]))]))].

Definition drain_answer_body : gmap string py :=
  list_to_map [("code", PInt 0);
               ("data", PDict (list_to_map [("drain_requested", PBool true)]))].

(** The registered client with its loop started, seen by the caller. *)
Definition started_world (server : list Outcome) : World :=
  snd (start_heartbeat_loop (new_world registered_client server)).

(** A client whose registry gave the interval as a string, its loop
    thread standing at the wait. *)
Definition string_interval_world : World :=
  set_pc 1 AtWait
    (snd (start_heartbeat_loop
            (new_world (set_heartbeat_interval (PStr "30") registered_client) []))).



(** * Properties *)

(** Unfolding one layer of the monad. *)
Ltac unfold_monad :=
  unfold bind, lift, ret, raise, get_client, modify_client, emit, print in *.

Ltac step_monad := unfold_monad; cbn [fst snd client] in *.

Section Registration.

Variable rt : Runtime.

(** Building the request reads the runtime only: the world is untouched. *)
Lemma RegisterRequest_new_world st ver caps res perf kwargs w :
  snd (RegisterRequest_new rt st ver caps res perf kwargs w) = w.
Proof.
  unfold RegisterRequest_new. unfold_monad.
  destruct (check_kwargs kwargs); cbn; [| reflexivity].
  destruct (eq_str (kwargs_get kwargs "ip_address" (PStr "")) ""); [| reflexivity].
  destruct (if eq_str _ "" then _ else _); try reflexivity.
  destruct (gethostbyname rt s); reflexivity.
Qed.

(** [raise_for_status] lets every status outside 400..599 through. *)
Lemma raise_for_status_2xx r w :
  200 <= status_code r < 300 -> raise_for_status r w = (Ok tt, w).
Proof.
  intros H. unfold raise_for_status.
  replace (status_code r <? 600) with true by (symmetry; apply Z.ltb_lt; lia).
  replace (400 <=? status_code r) with false by (symmetry; apply Z.leb_gt; lia).
  reflexivity.
Qed.

(** The response handler of [register] on a success body that carries
    the three identity fields. *)
Lemma register_response_success status body code d sid hb tok w :
  200 <= status < 300 ->
  body !! "code" = Some code -> eq_int code 0 = true ->
  body !! "data" = Some (PDict d) ->
  d !! "service_id" = Some sid ->
  d !! "heartbeat_interval" = Some hb ->
  d !! "token" = Some tok ->
  register_response {| status_code := status; json_body := Some (PDict body) |} w
  = (Ok (PDict d),
     mkWorld (set_token tok (set_heartbeat_interval hb (set_service_id sid (client w))))
             (current_thread w) (threads w) (next_tid w) (net w) (probes w) (log w)).
Proof.
  intros Hst Hcode Hzero Hdata Hsid Hhb Htok.
  unfold register_response, bind at 1.
  rewrite raise_for_status_2xx by exact Hst.
  unfold response_json, get, getitem. step_monad. cbn [json_body].
  rewrite Hcode. cbn [from_option id]. rewrite Hzero, Hdata, Hsid, Hhb, Htok.
  reflexivity.
Qed.

(** Conversely, whenever the response handler returns on a body with
    status code 0, what it returns is an object that carries the three
    fields, and these are what the client holds. *)
Lemma register_response_returns status body v w w' :
  code_is_zero body = true ->
  register_response {| status_code := status; json_body := Some (PDict body) |} w
  = (Ok v, w') ->
  body !! "data" = Some v /\
  getitem v "service_id" = Ok (service_id (client w')) /\
  getitem v "heartbeat_interval" = Ok (heartbeat_interval (client w')) /\
  getitem v "token" = Ok (token (client w')).
Proof.
  unfold code_is_zero. intros Hzero.
  unfold register_response, raise_for_status. cbn [status_code].
  unfold bind at 1. destruct (_ && _); [discriminate |].
  unfold response_json, get. step_monad. cbn [json_body]. rewrite Hzero.
  unfold getitem at 1 3 5 7.
  destruct (body !! "data") as [d|]; [| discriminate].
  destruct (getitem d "service_id") as [sid|] eqn:Hsid; [| discriminate].
  destruct (getitem d "heartbeat_interval") as [hb|] eqn:Hhb; [| discriminate].
  destruct (getitem d "token") as [tok|] eqn:Htok; [| discriminate].
  cbn. intros [= <- <-]. cbn. auto.
Qed.

(** The whole of [register] on such an answer. *)
Lemma register_success st ver kwargs w req status body d sid hb tok rest :
  fst (RegisterRequest_new rt st ver (capabilities (client w)) (resources (client w))
         (performance (client w)) kwargs w) = Ok req ->
  net w = NetResp status (Some (PDict body)) :: rest ->
  200 <= status < 300 ->
  code_is_zero body = true ->
  body !! "data" = Some (PDict d) ->
  d !! "service_id" = Some sid ->
  d !! "heartbeat_interval" = Some hb ->
  d !! "token" = Some tok ->
  register rt st ver kwargs w
  = (Ok (PDict d),
     mkWorld (set_token tok (set_heartbeat_interval hb (set_service_id sid (client w))))
             (current_thread w) (threads w) (next_tid w) rest (probes w)
             (EvPost (String.append (server_url (client w)) "/api/v1/services/register")
                     (asdict_RegisterRequest req) 10 :: log w)).
Proof.
  intros Hreq Hnet Hst Hzero Hdata Hsid Hhb Htok.
  pose proof (RegisterRequest_new_world st ver (capabilities (client w))
                (resources (client w)) (performance (client w)) kwargs w) as Hw.
  unfold register. unfold bind at 1, get_client at 1.
  unfold bind at 1.
  destruct (RegisterRequest_new _ _ _ _ _ _ _ _) as [r w1].
  cbn [fst snd] in Hreq, Hw. subst r w1.
  unfold bind at 1, requests_post. rewrite Hnet.
  unfold code_is_zero in Hzero.
  destruct (body !! "code") as [code|] eqn:Hcode; [| discriminate Hzero].
  erewrite register_response_success by eassumption.
  reflexivity.
Qed.

(** C2. A 2xx answer with status code 0 whose data object carries
    [service_id], [heartbeat_interval] and [token]: [register] returns
    the data object and the client stores exactly these three values. *)
Theorem register_stores_identity st ver kwargs w req status body d sid hb tok rest :
  fst (RegisterRequest_new rt st ver (capabilities (client w)) (resources (client w))
         (performance (client w)) kwargs w) = Ok req ->
  net w = NetResp status (Some (PDict body)) :: rest ->
  200 <= status < 300 ->
  code_is_zero body = true ->
  body !! "data" = Some (PDict d) ->
  d !! "service_id" = Some sid ->
  d !! "heartbeat_interval" = Some hb ->
  d !! "token" = Some tok ->
  fst (register rt st ver kwargs w) = Ok (PDict d) /\
  service_id (client (snd (register rt st ver kwargs w))) = sid /\
  heartbeat_interval (client (snd (register rt st ver kwargs w))) = hb /\
  token (client (snd (register rt st ver kwargs w))) = tok.
Proof.
  intros Hreq Hnet Hst Hzero Hdata Hsid Hhb Htok.
  erewrite register_success by eassumption.
  repeat split; reflexivity.
Qed.

(** A rejected registration assigns nothing. *)
Lemma register_response_rejected status body w :
  code_is_zero body = false ->
  client (snd (register_response {| status_code := status;
                                    json_body := Some (PDict body) |} w)) = client w.
Proof.
  intros Hcode. unfold register_response, bind at 1, raise_for_status.
  cbn [status_code]. destruct (_ && _); [reflexivity |].
  unfold response_json, get, getitem. step_monad. cbn [json_body].
  unfold code_is_zero in Hcode. rewrite Hcode.
  destruct (body !! "data"); reflexivity.
Qed.

(** C5, as the code has it. When the answer to [register] carries a
    status code other than 0, the client is the same after the call as
    before it: an identity that was absent stays absent, and one stored
    by an earlier registration stays in place. *)
Theorem register_rejected_keeps_identity st ver kwargs w status body rest :
  net w = NetResp status (Some (PDict body)) :: rest ->
  code_is_zero body = false ->
  client (snd (register rt st ver kwargs w)) = client w.
Proof.
  intros Hnet Hcode.
  pose proof (RegisterRequest_new_world st ver (capabilities (client w))
                (resources (client w)) (performance (client w)) kwargs w) as Hw.
  unfold register. unfold bind at 1, get_client at 1.
  unfold bind at 1.
  destruct (RegisterRequest_new _ _ _ _ _ _ _ _) as [[r|e] w1];
    cbn [snd] in Hw; subst w1; [| reflexivity].
  unfold bind at 1, requests_post. rewrite Hnet.
  rewrite register_response_rejected by exact Hcode. reflexivity.
Qed.

End Registration.

(** The registration of [fresh_client] on [host_runtime] reaches the
    network. *)
Lemma fresh_request_built w :
  client w = fresh_client ->
  exists req, fst (RegisterRequest_new host_runtime "text_to_image" "1.0.0"
                     (capabilities (client w)) (resources (client w))
                     (performance (client w)) ∅ w) = Ok req.
Proof. intros ->. eexists. vm_compute. reflexivity. Qed.

Lemma register_stores_identity_witness :
  let w := new_world fresh_client [NetResp 200 (Some (ok_body (PDict identity_svc1)))] in
  fst (register host_runtime "text_to_image" "1.0.0" ∅ w) = Ok (PDict identity_svc1) /\
  service_id (client (snd (register host_runtime "text_to_image" "1.0.0" ∅ w))) = PStr "svc-1" /\
  heartbeat_interval (client (snd (register host_runtime "text_to_image" "1.0.0" ∅ w))) = PInt 5 /\
  token (client (snd (register host_runtime "text_to_image" "1.0.0" ∅ w))) = PStr "tok-1".
Proof.
  intros w.
  eapply (register_stores_identity host_runtime "text_to_image" "1.0.0" ∅ w _ 200
            (list_to_map [("code", PInt 0); ("data", PDict identity_svc1)])
            identity_svc1 (PStr "svc-1") (PInt 5) (PStr "tok-1") []).
  - vm_compute. reflexivity.
  - reflexivity.
  - lia.
  - vm_compute. reflexivity.
  - vm_compute. reflexivity.
  - vm_compute. reflexivity.
  - vm_compute. reflexivity.
  - vm_compute. reflexivity.
Defined.

Lemma register_rejected_keeps_identity_witness :
  client (snd (register host_runtime "text_to_image" "1.0.0" ∅
                 (new_world fresh_client [NetResp 200 (Some (rejection_body (PDict ∅)))])))
  = fresh_client.
Proof.
  apply (register_rejected_keeps_identity host_runtime "text_to_image" "1.0.0" ∅
           (new_world fresh_client [NetResp 200 (Some (rejection_body (PDict ∅)))])
           200 (list_to_map [("code", PInt 1); ("data", PDict ∅)]) []).
  - reflexivity.
  - vm_compute. reflexivity.
Defined.

(** C5 as stated fails: a registered client whose second registration is
    rejected still holds the identity of the first. *)
Lemma register_rejected_identity_not_unset :
  let w := new_world registered_client [NetResp 200 (Some (rejection_body (PDict ∅)))] in
  let w' := snd (register host_runtime "text_to_image" "1.0.0" ∅ w) in
  code_is_zero (list_to_map [("code", PInt 1); ("data", PDict ∅)]) = false /\
  service_id (client w') = PStr "svc-1" /\
  token (client w') = PStr "tok-1" /\
  heartbeat_interval (client w') = PInt 5 /\
  identity_absent (client w') = false.
Proof. vm_compute. repeat split; reflexivity. Qed.

Section Calls.

Variable rt : Runtime.

(** A new client has no identity. *)
Lemma init_identity_absent url caps res perf :
  identity_absent (ServiceRegistryClient_init rt url caps res perf) = true.
Proof. reflexivity. Qed.

(** C1. With no identity stored ([not self.service_id]), [heartbeat] and
    [shutdown] raise the "not registered" error and leave the world as it
    was: nothing is sent, nothing is logged, no answer of the server is
    consumed. *)
Theorem unregistered_calls_fail_fast kwargs reason w :
  identity_absent (client w) = true ->
  heartbeat rt kwargs w = (Raise (RuntimeError "Service not registered"), w) /\
  shutdown reason w = (Raise (RuntimeError "Service not registered"), w).
Proof.
  unfold identity_absent. intros Habs.
  unfold heartbeat, shutdown, bind, get_client. rewrite Habs.
  split; reflexivity.
Qed.

(** Reading the metrics and building the request touches the probe
    counter only. *)
Lemma heartbeat_request_frame kwargs w :
  let w' := snd (heartbeat_request rt kwargs w) in
  client w' = client w /\ current_thread w' = current_thread w /\
  threads w' = threads w /\ next_tid w' = next_tid w /\
  net w' = net w /\ log w' = log w.
Proof.
  unfold heartbeat_request, psutil_cpu_percent, psutil_virtual_memory_used,
    _get_gpu_utilization, HeartbeatRequest_new, next_probe.
  unfold_monad. cbn.
  destruct (GPUtil rt _) as [| |[|? ?]]; cbn;
    (destruct (time_attr_call rt "utcnow") as [now|]; cbn;
     [destruct (isoformat now) |]; cbn; auto 10).
Qed.

(** C9. [shutdown], whether it returns or raises, leaves the client's
    attributes (among them [_running], [_stop_event] and [_thread]) and
    the thread table as they were. *)
Theorem shutdown_keeps_loop_state reason w :
  let w' := snd (shutdown reason w) in
  client w' = client w /\
  _running (client w') = _running (client w) /\
  _stop_event (client w') = _stop_event (client w) /\
  _thread (client w') = _thread (client w) /\
  threads w' = threads w.
Proof.
  cbn zeta.
  assert (H : client (snd (shutdown reason w)) = client w /\
              threads (snd (shutdown reason w)) = threads w).
  { unfold shutdown, requests_post, raise_for_status, response_json, getitem.
    unfold_monad.
    destruct (negb _); [split; reflexivity |].
    destruct (net w) as [|[kind|status body] rest]; try (split; reflexivity).
    cbn [status_code json_body].
    destruct (_ && _); [split; reflexivity |].
    destruct body as [v|]; [| split; reflexivity].
    destruct v; split; reflexivity. }
  destruct H as [Hc Ht]. rewrite Hc. auto.
Qed.

(** Once the identity is there and the request is built, [heartbeat] is
    the POST followed by the response handler. *)
Lemma heartbeat_after_request kwargs w req :
  identity_absent (client w) = false ->
  fst (heartbeat_request rt kwargs w) = Ok req ->
  heartbeat rt kwargs w
  = bind (requests_post (String.append (server_url (client w)) "/api/v1/services/heartbeat")
                        (asdict_HeartbeatRequest req) 5)
         (heartbeat_response rt) (snd (heartbeat_request rt kwargs w)).
Proof.
  unfold identity_absent. intros Hid Hreq.
  unfold heartbeat. unfold bind at 1, get_client at 1. rewrite Hid.
  unfold bind at 1. destruct (heartbeat_request rt kwargs w) as [r w1].
  cbn [fst snd] in *. subst r. reflexivity.
Qed.

(** C3, on the code. In a runtime whose module [time] is CPython's, a
    [heartbeat] call with the identity set never gets as far as the
    network: [time.utcnow] does not exist, so building the request
    raises [AttributeError] whatever the metrics and counters are, and
    no request is sent. *)
Theorem heartbeat_request_never_built kwargs w :
  identity_absent (client w) = false ->
  time_dir rt = cpython_time_dir ->
  fst (heartbeat rt kwargs w) = Raise (AttributeError "module" "utcnow") /\
  log (snd (heartbeat rt kwargs w)) = log w /\
  net (snd (heartbeat rt kwargs w)) = net w.
Proof.
  unfold identity_absent. intros Hid Htime.
  pose proof (heartbeat_request_frame kwargs w) as Hfr. cbn zeta in Hfr.
  assert (Hreq : fst (heartbeat_request rt kwargs w)
                 = Raise (AttributeError "module" "utcnow")).
  { unfold heartbeat_request, psutil_cpu_percent, psutil_virtual_memory_used,
      _get_gpu_utilization, HeartbeatRequest_new, next_probe, time_attr_call.
    rewrite Htime. unfold_monad. cbn.
    destruct (GPUtil rt _) as [| |[|? ?]]; reflexivity. }
  assert (Heq : heartbeat rt kwargs w
                = (Raise (AttributeError "module" "utcnow"),
                   snd (heartbeat_request rt kwargs w))).
  { unfold heartbeat. unfold bind at 1, get_client at 1. rewrite Hid. cbn [negb].
    unfold bind at 1. destruct (heartbeat_request rt kwargs w) as [r w1].
    cbn [fst snd] in *. subst r. reflexivity. }
  rewrite Heq. cbn [fst snd]. tauto.
Qed.

(** A body without ["data"]: both branches of the response handlers
    subscript it and fail. *)
Lemma register_response_no_data status body w :
  200 <= status < 300 ->
  body !! "data" = None ->
  register_response {| status_code := status; json_body := Some (PDict body) |} w
  = (Raise (KeyError "data"), w).
Proof.
  intros Hst Hdata. unfold register_response, bind at 1.
  rewrite raise_for_status_2xx by exact Hst.
  unfold response_json, get, getitem. step_monad. cbn [json_body].
  rewrite Hdata. destruct (eq_int _ 0); reflexivity.
Qed.

Lemma heartbeat_response_no_data status body w :
  200 <= status < 300 ->
  body !! "data" = None ->
  heartbeat_response rt {| status_code := status; json_body := Some (PDict body) |} w
  = (Raise (KeyError "data"), w).
Proof.
  intros Hst Hdata. unfold heartbeat_response, bind at 1.
  rewrite raise_for_status_2xx by exact Hst.
  unfold response_json, get, getitem. step_monad. cbn [json_body].
  rewrite Hdata. destruct (eq_int _ 0); reflexivity.
Qed.

(** A body that is JSON but not an object fails earlier and otherwise:
    it has no [get] method, and cannot be subscripted by a string. *)
Lemma non_object_body_raises status v w :
  200 <= status < 300 ->
  match v with PDict _ => False | _ => True end ->
  register_response {| status_code := status; json_body := Some v |} w
  = (Raise (AttributeError (type_name v) "get"), w) /\
  heartbeat_response rt {| status_code := status; json_body := Some v |} w
  = (Raise (AttributeError (type_name v) "get"), w).
Proof.
  intros Hst Hv. unfold register_response, heartbeat_response.
  split; unfold bind at 1; rewrite raise_for_status_2xx by exact Hst;
    unfold response_json, get; step_monad; cbn [json_body];
    destruct v; try contradiction; reflexivity.
Qed.

(** C10. A 2xx answer whose JSON object has no ["data"] member makes
    [register], [heartbeat] (its response handler, and the whole call
    once the request has been built) and [shutdown] raise
    [KeyError('data')], whether the status code in the body is 0 or
    not. *)
Theorem missing_data_raises_KeyError st ver kwargs hb_kwargs reason w status body rest req hreq :
  net w = NetResp status (Some (PDict body)) :: rest ->
  200 <= status < 300 ->
  body !! "data" = None ->
  (fst (RegisterRequest_new rt st ver (capabilities (client w)) (resources (client w))
          (performance (client w)) kwargs w) = Ok req ->
   fst (register rt st ver kwargs w) = Raise (KeyError "data")) /\
  (forall w0, heartbeat_response rt {| status_code := status;
                                       json_body := Some (PDict body) |} w0
              = (Raise (KeyError "data"), w0)) /\
  (identity_absent (client w) = false ->
   fst (heartbeat_request rt hb_kwargs w) = Ok hreq ->
   fst (heartbeat rt hb_kwargs w) = Raise (KeyError "data")) /\
  (identity_absent (client w) = false ->
   fst (shutdown reason w) = Raise (KeyError "data")).
Proof.
  intros Hnet Hst Hdata. repeat split.
  - intros Hreq.
    pose proof (RegisterRequest_new_world rt st ver (capabilities (client w))
                  (resources (client w)) (performance (client w)) kwargs w) as Hw.
    unfold register. unfold bind at 1, get_client at 1. unfold bind at 1.
    destruct (RegisterRequest_new _ _ _ _ _ _ _ _) as [r w1].
    cbn [fst snd] in Hreq, Hw. subst r w1.
    unfold bind at 1, requests_post. rewrite Hnet.
    rewrite register_response_no_data by assumption. reflexivity.
  - intros w0. apply heartbeat_response_no_data; assumption.
  - intros Hid Hreq.
    rewrite (heartbeat_after_request hb_kwargs w hreq Hid Hreq).
    pose proof (heartbeat_request_frame hb_kwargs w) as Hfr. cbn zeta in Hfr.
    destruct Hfr as (_ & _ & _ & _ & Hn & _).
    unfold bind at 1, requests_post. rewrite Hn, Hnet.
    rewrite heartbeat_response_no_data by assumption. reflexivity.
  - unfold identity_absent. intros Hid.
    unfold shutdown. unfold bind at 1, get_client at 1. rewrite Hid. cbn [negb].
    unfold bind at 1, requests_post. rewrite Hnet.
    unfold bind at 1. rewrite raise_for_status_2xx by exact Hst.
    unfold response_json, getitem. step_monad. cbn [json_body]. rewrite Hdata.
    reflexivity.
Qed.

(** A rejection with a ["data"] member: the success branch is skipped
    and the member returned. *)
Lemma register_response_rejection status body v w :
  200 <= status < 300 ->
  code_is_zero body = false ->
  body !! "data" = Some v ->
  register_response {| status_code := status; json_body := Some (PDict body) |} w
  = (Ok v, w).
Proof.
  intros Hst Hcode Hdata. unfold register_response, bind at 1.
  rewrite raise_for_status_2xx by exact Hst.
  unfold response_json, get, getitem. step_monad. cbn [json_body].
  unfold code_is_zero in Hcode. rewrite Hcode, Hdata. reflexivity.
Qed.

Lemma heartbeat_response_rejection status body v w :
  200 <= status < 300 ->
  code_is_zero body = false ->
  body !! "data" = Some v ->
  heartbeat_response rt {| status_code := status; json_body := Some (PDict body) |} w
  = (Ok v, w).
Proof.
  intros Hst Hcode Hdata. unfold heartbeat_response, bind at 1.
  rewrite raise_for_status_2xx by exact Hst.
  unfold response_json, get, getitem. step_monad. cbn [json_body].
  unfold code_is_zero in Hcode. rewrite Hcode, Hdata. reflexivity.
Qed.

(** C4, as the code has it. A 2xx answer whose body carries a status
    code other than 0 is not turned into an error of its own at any call
    site. [register] and [heartbeat] skip their success branch (nothing
    is stored, no signal is dispatched) and end as a successful call
    does, by handing back the body's ["data"] member; [shutdown] does
    not look at the code at all. The member is returned when the body
    has one, and the subscript raises [KeyError] when it has none. *)
Theorem rejection_returns_data st ver kwargs hb_kwargs reason w status body rest req hreq :
  net w = NetResp status (Some (PDict body)) :: rest ->
  200 <= status < 300 ->
  code_is_zero body = false ->
  (fst (RegisterRequest_new rt st ver (capabilities (client w)) (resources (client w))
          (performance (client w)) kwargs w) = Ok req ->
   fst (register rt st ver kwargs w) = getitem (PDict body) "data" /\
   client (snd (register rt st ver kwargs w)) = client w) /\
  (forall w0, heartbeat_response rt {| status_code := status;
                                       json_body := Some (PDict body) |} w0
              = (getitem (PDict body) "data", w0)) /\
  (identity_absent (client w) = false ->
   fst (heartbeat_request rt hb_kwargs w) = Ok hreq ->
   fst (heartbeat rt hb_kwargs w) = getitem (PDict body) "data" /\
   client (snd (heartbeat rt hb_kwargs w)) = client w) /\
  (identity_absent (client w) = false ->
   fst (shutdown reason w) = getitem (PDict body) "data" /\
   client (snd (shutdown reason w)) = client w) /\
  (forall v, body !! "data" = Some v -> getitem (PDict body) "data" = Ok v) /\
  (body !! "data" = None -> getitem (PDict body) "data" = Raise (KeyError "data")).
Proof.
  intros Hnet Hst Hcode.
  assert (Hreg : forall w0, register_response {| status_code := status;
                                                 json_body := Some (PDict body) |} w0
                            = (getitem (PDict body) "data", w0)).
  { intros w0. unfold getitem. destruct (body !! "data") as [v|] eqn:Hdata.
    - apply register_response_rejection; assumption.
    - apply register_response_no_data; assumption. }
  assert (Hhb : forall w0, heartbeat_response rt {| status_code := status;
                                                    json_body := Some (PDict body) |} w0
                           = (getitem (PDict body) "data", w0)).
  { intros w0. unfold getitem. destruct (body !! "data") as [v|] eqn:Hdata.
    - apply heartbeat_response_rejection; assumption.
    - apply heartbeat_response_no_data; assumption. }
  split; [| split; [exact Hhb | split; [| split; [| split]]]].
  - intros Hreq.
    pose proof (RegisterRequest_new_world rt st ver (capabilities (client w))
                  (resources (client w)) (performance (client w)) kwargs w) as Hw.
    assert (Heq : register rt st ver kwargs w
                  = (getitem (PDict body) "data",
                     mkWorld (client w) (current_thread w) (threads w) (next_tid w) rest
                       (probes w)
                       (EvPost (String.append (server_url (client w))
                                  "/api/v1/services/register")
                          (asdict_RegisterRequest req) 10 :: log w))).
    { unfold register. unfold bind at 1, get_client at 1. unfold bind at 1.
      destruct (RegisterRequest_new _ _ _ _ _ _ _ _) as [r w1].
      cbn [fst snd] in Hreq, Hw. subst r w1.
      unfold bind at 1, requests_post. rewrite Hnet. rewrite Hreg. reflexivity. }
    rewrite Heq. split; reflexivity.
  - intros Hid Hreq.
    pose proof (heartbeat_request_frame hb_kwargs w) as Hfr. cbn zeta in Hfr.
    destruct Hfr as (Hc & _ & _ & _ & Hn & _).
    assert (Heq : exists w', heartbeat rt hb_kwargs w = (getitem (PDict body) "data", w') /\
                             client w' = client w).
    { rewrite (heartbeat_after_request hb_kwargs w hreq Hid Hreq).
      unfold bind at 1, requests_post. rewrite Hn, Hnet. rewrite Hhb.
      eexists. split; [reflexivity | exact Hc]. }
    destruct Heq as (w' & -> & Hc'). split; [reflexivity | exact Hc'].
  - unfold identity_absent. intros Hid.
    assert (Heq : shutdown reason w
                  = (getitem (PDict body) "data",
                     mkWorld (client w) (current_thread w) (threads w) (next_tid w) rest
                       (probes w)
                       (EvPost (String.append (server_url (client w))
                                  "/api/v1/services/shutdown")
                          (PDict (list_to_map [("service_id", service_id (client w));
                                               ("reason", PStr reason)])) 5 :: log w))).
    { unfold shutdown. unfold bind at 1, get_client at 1. rewrite Hid. cbn [negb].
      unfold bind at 1, requests_post. rewrite Hnet.
      unfold bind at 1. rewrite raise_for_status_2xx by exact Hst.
      unfold response_json. unfold_monad. cbn [json_body]. reflexivity. }
    rewrite Heq. split; reflexivity.
  - intros v Hv. unfold getitem. rewrite Hv. reflexivity.
  - intros Hv. unfold getitem. rewrite Hv. reflexivity.
Qed.

End Calls.

Lemma unregistered_calls_fail_fast_witness :
  let w := new_world fresh_client [NetResp 200 (Some (ok_body (PDict ∅)))] in
  identity_absent (client w) = true /\
  heartbeat host_runtime ∅ w = (Raise (RuntimeError "Service not registered"), w) /\
  shutdown "bye" w = (Raise (RuntimeError "Service not registered"), w).
Proof.
  intros w. split; [reflexivity |].
  apply (unregistered_calls_fail_fast host_runtime ∅ "bye" w). reflexivity.
Defined.

Lemma heartbeat_request_never_built_witness :
  let w := new_world registered_client [NetResp 200 (Some (ok_body (PDict ∅)))] in
  fst (heartbeat host_runtime ∅ w) = Raise (AttributeError "module" "utcnow") /\
  log (snd (heartbeat host_runtime ∅ w)) = [] /\
  net (snd (heartbeat host_runtime ∅ w)) = [NetResp 200 (Some (ok_body (PDict ∅)))].
Proof.
  intros w. apply (heartbeat_request_never_built host_runtime ∅ w); reflexivity.
Defined.

Lemma missing_data_raises_KeyError_witness :
  let w := new_world registered_client
             [NetResp 200 (Some (PDict (list_to_map [("code", PInt 0)])))] in
  fst (register patched_runtime "text_to_image" "1.0.0" ∅ w) = Raise (KeyError "data") /\
  fst (heartbeat patched_runtime ∅ w) = Raise (KeyError "data") /\
  fst (shutdown "stopping" w) = Raise (KeyError "data").
Proof.
  intros w.
  edestruct (missing_data_raises_KeyError patched_runtime "text_to_image" "1.0.0" ∅ ∅
               "stopping" w 200 (list_to_map [("code", PInt 0)]) [])
    as (Hreg & _ & Hhb & Hsh).
  - reflexivity.
  - lia.
  - vm_compute. reflexivity.
  - split; [apply Hreg; lazy; reflexivity |].
    split; [apply Hhb; lazy; reflexivity | apply Hsh; reflexivity].
Defined.

(** C4 as stated fails: on the stock worker a rejected registration, a
    rejected shutdown and the heartbeat handler on a rejection all return
    normally, where a transport failure raises. *)
Lemma rejection_is_not_raised :
  code_is_zero (list_to_map [("code", PInt 1); ("data", PDict ∅)]) = false /\
  fst (register host_runtime "text_to_image" "1.0.0" ∅
         (new_world fresh_client [NetResp 200 (Some (rejection_body (PDict ∅)))]))
  = Ok (PDict ∅) /\
  fst (register host_runtime "text_to_image" "1.0.0" ∅
         (new_world fresh_client [NetFail "ConnectionError"]))
  = Raise (RequestException "ConnectionError") /\
  fst (shutdown "stopping"
         (new_world registered_client [NetResp 200 (Some (rejection_body (PDict ∅)))]))
  = Ok (PDict ∅) /\
  fst (heartbeat_response host_runtime
         {| status_code := 200; json_body := Some (rejection_body (PDict ∅)) |}
         (new_world registered_client []))
  = Ok (PDict ∅).
Proof. vm_compute. repeat split; reflexivity. Qed.

Lemma rejection_returns_data_witness :
  let w := new_world registered_client [NetResp 200 (Some (rejection_body (PStr "busy")))] in
  fst (register host_runtime "text_to_image" "1.0.0" ∅ w) = Ok (PStr "busy") /\
  client (snd (register host_runtime "text_to_image" "1.0.0" ∅ w)) = registered_client /\
  heartbeat_response host_runtime
    {| status_code := 200; json_body := Some (rejection_body (PStr "busy")) |} w
  = (Ok (PStr "busy"), w) /\
  fst (shutdown "stopping" w) = Ok (PStr "busy").
Proof.
  intros w.
  destruct (fst (RegisterRequest_new host_runtime "text_to_image" "1.0.0"
                   (capabilities (client w)) (resources (client w))
                   (performance (client w)) ∅ w)) as [req|e] eqn:Hreq;
    [| vm_compute in Hreq; discriminate Hreq].
  destruct (rejection_returns_data host_runtime "text_to_image" "1.0.0" ∅ ∅
              "stopping" w 200 (list_to_map [("code", PInt 1); ("data", PStr "busy")]) []
              req
              {| hr_service_id := PStr "svc-1"; hr_timestamp := PStr "";
                 hr_current_load := S754_zero false; hr_queue_size := PInt 0;
                 hr_processed_count := PInt 0; hr_error_count := PInt 0;
                 hr_cpu_utilization := S754_zero false;
                 hr_gpu_utilization := S754_zero false;
                 hr_memory_usage := 0; hr_token := PStr "tok-1" |})
    as (Hreg & Hhb & _ & Hsh & Hsome & _).
  - reflexivity.
  - lia.
  - vm_compute. reflexivity.
  - destruct (Hreg Hreq) as [Hr Hc].
    destruct Hsh as [Hs _]; [reflexivity |].
    rewrite Hr, Hs, (Hsome (PStr "busy") eq_refl).
    split; [reflexivity |]. split; [exact Hc |]. split; [| reflexivity].
    unfold rejection_body. rewrite (Hhb w), (Hsome (PStr "busy") eq_refl). reflexivity.
Defined.


Section Loop.

Variable rt : Runtime.

Lemma same_loop_state_refl w : same_loop_state w w.
Proof. unfold same_loop_state. tauto. Qed.

Lemma same_loop_state_trans w1 w2 w3 :
  same_loop_state w1 w2 -> same_loop_state w2 w3 -> same_loop_state w1 w3.
Proof. unfold same_loop_state. intuition congruence. Qed.

(** The request is built exactly when [time.utcnow] is usable; when it
    is not, the error is an [AttributeError]. *)
Lemma heartbeat_request_result kwargs w :
  (utcnow_bound rt = true /\ exists req, fst (heartbeat_request rt kwargs w) = Ok req) \/
  (utcnow_bound rt = false /\
   exists obj attr, fst (heartbeat_request rt kwargs w) = Raise (AttributeError obj attr)).
Proof.
  unfold utcnow_bound, heartbeat_request, psutil_cpu_percent, psutil_virtual_memory_used,
    _get_gpu_utilization, HeartbeatRequest_new, next_probe, time_attr_call, isoformat.
  unfold_monad. cbn.
  destruct (string_in "utcnow" (time_dir rt)); cbn.
  - destruct (time_call rt "utcnow"); cbn;
      destruct (GPUtil rt _) as [| |[|? ?]]; cbn; eauto 6.
  - right. destruct (GPUtil rt _) as [| |[|? ?]]; cbn; eauto 6.
Qed.

(** On a failing answer the response handler raises an [Exception]
    without touching the world. *)
Lemma heartbeat_response_failing status body w :
  failing_outcome (NetResp status body) = true ->
  exists e, heartbeat_response rt {| status_code := status; json_body := body |} w
            = (Raise e, w) /\ is_Exception e = true.
Proof.
  unfold failing_outcome, heartbeat_response, raise_for_status, response_json.
  unfold bind at 1. cbn [status_code json_body].
  destruct ((400 <=? status) && (status <? 600)); cbn [orb].
  - intros _. eexists. split; reflexivity.
  - unfold_monad. destruct body as [v|]; [| intros _; eexists; split; reflexivity].
    destruct v as [ | | | | | |d| ]; try (intros _; eexists; split; reflexivity).
    unfold get, getitem at 1 3. fold (code_is_zero d).
    destruct (d !! "data") as [v|]; intros Hf.
    + destruct v; try discriminate Hf; rewrite Hf; eexists; split; reflexivity.
    + destruct (code_is_zero d); eexists; split; reflexivity.
Qed.

(** A heartbeat on a failing answer raises an [Exception]; the client
    and the threads are as before, and one answer of the server is used
    up when the request went out. *)
Lemma heartbeat_attempt_fails kwargs w :
  failing_outcome (answer w 0) = true ->
  exists e w', heartbeat rt kwargs w = (Raise e, w') /\ is_Exception e = true /\
    same_loop_state w w' /\
    (net w' = net w \/ net w' = tl (net w)) /\
    (identity_absent (client w) = false -> utcnow_bound rt = true ->
     net w' = tl (net w) /\ length (posts w') = S (length (posts w))).
Proof.
  intros Hfail. unfold heartbeat. unfold bind at 1, get_client at 1.
  unfold identity_absent.
  destruct (truthy (service_id (client w))) eqn:Hid; cbn [negb].
  2:{ exists (RuntimeError "Service not registered"), w.
      repeat split; auto using same_loop_state_refl; try discriminate. }
  pose proof (heartbeat_request_frame rt kwargs w) as Hfr. cbn zeta in Hfr.
  destruct Hfr as (Hc & Hct & Hth & Hnt & Hn & Hl).
  unfold bind at 1.
  destruct (heartbeat_request_result kwargs w) as [[Hb [req Hreq]]|[Hb (obj & attr & Hreq)]];
    destruct (heartbeat_request rt kwargs w) as [r w1]; cbn [fst snd] in *; subst r.
  2:{ exists (AttributeError obj attr), w1.
      repeat split; auto; try congruence.
      unfold failures_logged; congruence. }
  unfold bind at 1, requests_post. unfold answer in Hfail. rewrite <- Hn in Hfail.
  unfold posts.
  destruct (net w1) as [|[kind|status body] rest] eqn:Hnet; rewrite <- Hn.
  - eexists _, _. split; [reflexivity |]. cbn.
    repeat split; auto; try congruence;
      try (unfold failures_logged; cbn; congruence); try (rewrite Hl; reflexivity).
  - eexists _, _. split; [reflexivity |]. cbn.
    repeat split; auto; try congruence;
      try (unfold failures_logged; cbn; congruence); try (rewrite Hl; reflexivity).
  - cbn [nth] in Hfail.
    destruct (heartbeat_response_failing status body
                (mkWorld (client w1) (current_thread w1) (threads w1) (next_tid w1) rest
                   (probes w1)
                   (EvPost (String.append (server_url (client w)) "/api/v1/services/heartbeat")
                      (asdict_HeartbeatRequest req) 5 :: log w1)) Hfail)
      as (e & He & Hexc).
    rewrite He. exists e. eexists. split; [reflexivity |]. cbn.
    repeat split; auto; try congruence;
      try (unfold failures_logged; cbn; congruence); try (rewrite Hl; reflexivity).
Qed.

(** One pass of the loop on a failing answer: the exception is caught
    and reported, and nothing else changes. *)
Lemma loop_try_failure w :
  failing_outcome (answer w 0) = true ->
  exists e w', loop_try rt w = (Ok tt, w') /\
    client w' = client w /\ current_thread w' = current_thread w /\
    threads w' = threads w /\ next_tid w' = next_tid w /\
    head (log w') = Some (EvPrint "Heartbeat failed: " (ShownExn e)) /\
    failures_logged w' = S (failures_logged w) /\
    (net w' = net w \/ net w' = tl (net w)) /\
    (identity_absent (client w) = false -> utcnow_bound rt = true ->
     net w' = tl (net w) /\ length (posts w') = S (length (posts w))).
Proof.
  intros Hfail.
  destruct (heartbeat_attempt_fails ∅ w Hfail)
    as (e & w1 & Hhb & Hexc & (Hc & Hct & Hth & Hnt & Hfl) & Hnet & Hreach).
  unfold loop_try, try_except. unfold bind at 1. rewrite Hhb, Hexc.
  exists e. eexists. split; [reflexivity |]. cbn.
  repeat split; auto;
    try (apply Hreach; assumption);
    try (unfold failures_logged in *; cbn; congruence);
    try (unfold posts in *; cbn; apply Hreach; assumption).
Qed.

(** With an interval the lock accepts, the wait of the loop returns. *)
Lemma loop_wait_returns w :
  interval_ok rt (heartbeat_interval (client w)) = true ->
  exists b w', loop_wait rt w = (Ok (Woken b), w') /\
    same_loop_state w w' /\ net w' = net w /\ posts w' = posts w.
Proof.
  unfold interval_ok, loop_wait, Event_wait. unfold_monad. intros Hok.
  destruct (_stop_event (client w)).
  - exists true, w. repeat split; reflexivity.
  - destruct (heartbeat_interval (client w)); try discriminate Hok;
      destruct (timeout_too_large rt _); try discriminate Hok;
      eexists false, _; (split; [reflexivity |]); repeat split; reflexivity.
Qed.

Lemma answer_tail w w' i :
  net w' = net w \/ net w' = tl (net w) ->
  answer w' i = answer w i \/ answer w' i = answer w (S i).
Proof.
  unfold answer. intros [-> | ->]; [left; reflexivity | right].
  destruct (net w); [destruct i |]; reflexivity.
Qed.

(** The loop goes through any number of failing attempts: it neither
    returns nor raises, and its switches stay as they were. *)
Lemma loop_through_failures n : forall w,
  _running (client w) = true ->
  interval_ok rt (heartbeat_interval (client w)) = true ->
  (forall i, (i < n)%nat -> failing_outcome (answer w i) = true) ->
  exists w', _heartbeat_loop rt n w = (Ok StillLooping, w') /\
    client w' = client w /\ current_thread w' = current_thread w /\
    threads w' = threads w /\
    failures_logged w' = (failures_logged w + n)%nat /\
    (identity_absent (client w) = false -> utcnow_bound rt = true ->
     net w' = skipn n (net w) /\ length (posts w') = (length (posts w) + n)%nat).
Proof.
  induction n as [|n IH]; intros w Hrun Hint Hfail.
  - exists w. cbn. rewrite !Nat.add_0_r. auto 10.
  - destruct (loop_try_failure w (Hfail 0%nat (Nat.lt_0_succ n)))
      as (e & w1 & Htry & Hc1 & Hct1 & Hth1 & _ & _ & Hfl1 & Hnet1 & Hreach1).
    assert (Hint1 : interval_ok rt (heartbeat_interval (client w1)) = true)
      by (rewrite Hc1; exact Hint).
    destruct (loop_wait_returns w1 Hint1)
      as (b & w2 & Hwait & (Hc2 & Hct2 & Hth2 & _ & Hfl2) & Hnet2 & Hposts2).
    destruct (IH w2) as (w' & Hloop & Hc' & Hct' & Hth' & Hfl' & Hreach').
    + rewrite Hc2, Hc1. exact Hrun.
    + rewrite Hc2, Hc1. exact Hint.
    + intros i Hi.
      assert (Hn : net w2 = net w \/ net w2 = tl (net w)) by (rewrite Hnet2; exact Hnet1).
      destruct (answer_tail w w2 i Hn) as [-> | ->]; apply Hfail; lia.
    + exists w'. split.
      * cbn [_heartbeat_loop]. unfold bind at 1, get_client at 1. rewrite Hrun.
        unfold bind at 1. rewrite Htry. unfold bind at 1. rewrite Hwait. exact Hloop.
      * repeat split; try congruence.
        -- rewrite Hfl', Hfl2, Hfl1. lia.
        -- destruct Hreach' as [Hn' _]; [congruence | assumption |].
           destruct Hreach1 as [Hn1 _]; [assumption | assumption |].
           rewrite Hn', Hnet2, Hn1. destruct (net w); [destruct n |]; reflexivity.
        -- destruct Hreach' as [_ Hp']; [congruence | assumption |].
           destruct Hreach1 as [_ Hp1]; [assumption | assumption |].
           rewrite Hp', Hposts2, Hp1. lia.
Qed.

(** Running [n + m] passes is running [n] passes and then [m] more. *)
Lemma _heartbeat_loop_app n m : forall w,
  _heartbeat_loop rt (n + m) w
  = match _heartbeat_loop rt n w with
    | (Ok StillLooping, w') => _heartbeat_loop rt m w'
    | r => r
    end.
Proof.
  induction n as [|n IH]; intros w; [reflexivity |].
  cbn [Nat.add _heartbeat_loop]. unfold bind, get_client, ret.
  destruct (_running (client w)); [| reflexivity].
  destruct (loop_try rt w) as [[[]|e] w1]; [| reflexivity].
  destruct (loop_wait rt w1) as [[[b|]|e] w2]; try reflexivity.
  apply IH.
Qed.

(** A quiet success goes through the response handler untouched. *)
Lemma heartbeat_response_quiet status d w :
  quiet_success (NetResp status (Some (PDict d))) = true ->
  exists v, heartbeat_response rt {| status_code := status; json_body := Some (PDict d) |} w
            = (Ok v, w).
Proof.
  unfold quiet_success, heartbeat_response, raise_for_status, response_json.
  unfold bind at 1. cbn [status_code json_body].
  destruct ((400 <=? status) && (status <? 600)); cbn [negb andb]; [discriminate |].
  unfold_monad. unfold get, getitem. fold (code_is_zero d).
  destruct (code_is_zero d); cbn [andb]; [| discriminate].
  destruct (d !! "data") as [[ | | | | | |hd| ]|]; try discriminate.
  destruct (truthy (default PNone (hd !! "config_update"))); cbn [negb andb];
    [discriminate |].
  destruct (truthy (default PNone (hd !! "drain_requested"))); cbn [negb];
    [discriminate |].
  intros _. eexists. reflexivity.
Qed.

(** One pass of the loop on a quiet success: the request goes out, no
    failure is reported, the client is as before. *)
Lemma loop_try_quiet w :
  identity_absent (client w) = false ->
  utcnow_bound rt = true ->
  quiet_success (answer w 0) = true ->
  exists w', loop_try rt w = (Ok tt, w') /\ same_loop_state w w' /\
    length (posts w') = S (length (posts w)).
Proof.
  intros Hid Hb Hq.
  destruct (heartbeat_request_result ∅ w) as [[_ [req Hreq]]|[Hb' _]]; [| congruence].
  unfold loop_try, try_except. unfold bind at 1.
  rewrite (heartbeat_after_request rt ∅ w req Hid Hreq).
  pose proof (heartbeat_request_frame rt ∅ w) as Hfr. cbn zeta in Hfr.
  destruct Hfr as (Hc & Hct & Hth & Hnt & Hn & Hl).
  destruct (heartbeat_request rt ∅ w) as [r w1]. cbn [fst snd] in *.
  unfold answer in Hq. rewrite <- Hn in Hq.
  unfold bind at 1, requests_post.
  destruct (net w1) as [|[kind|status [[ | | | | | |d| ]|]] rest]; try discriminate Hq.
  cbn [nth] in Hq.
  destruct (heartbeat_response_quiet status d
              (mkWorld (client w1) (current_thread w1) (threads w1) (next_tid w1) rest
                 (probes w1)
                 (EvPost (String.append (server_url (client w)) "/api/v1/services/heartbeat")
                    (asdict_HeartbeatRequest req) 5 :: log w1)) Hq) as [v Hv].
  rewrite Hv. eexists. split; [reflexivity |].
  unfold same_loop_state, failures_logged, posts. cbn. rewrite Hl.
  repeat split; auto.
Qed.

(** C7. While the loop is running, any number [n] of consecutive
    heartbeat attempts that fail (no response, an error status, an
    undecodable or malformed body, or a request that could not be built)
    is survived: each exception is caught and reported by the loop, the
    loop neither returns nor raises, and [_running] stays true. When the
    next attempt is a success it completes too, without a report, and the
    loop is still running. *)
Theorem loop_survives_failures n w :
  _running (client w) = true ->
  interval_ok rt (heartbeat_interval (client w)) = true ->
  (forall i, (i < n)%nat -> failing_outcome (answer w i) = true) ->
  (exists w', _heartbeat_loop rt n w = (Ok StillLooping, w') /\
     _running (client w') = true /\ client w' = client w /\
     threads w' = threads w /\
     failures_logged w' = (failures_logged w + n)%nat) /\
  (identity_absent (client w) = false -> utcnow_bound rt = true ->
   quiet_success (answer w n) = true ->
   exists w'', _heartbeat_loop rt (S n) w = (Ok StillLooping, w'') /\
     _running (client w'') = true /\ client w'' = client w /\
     threads w'' = threads w /\
     failures_logged w'' = (failures_logged w + n)%nat /\
     length (posts w'') = (length (posts w) + S n)%nat).
Proof.
  intros Hrun Hint Hfail.
  destruct (loop_through_failures n w Hrun Hint Hfail)
    as (w' & Hloop & Hc & Hct & Hth & Hfl & Hreach).
  split.
  - exists w'. rewrite Hc. auto.
  - intros Hid Hb Hq.
    destruct (Hreach Hid Hb) as [Hnet Hposts].
    assert (Hq' : quiet_success (answer w' 0) = true).
    { unfold answer in *. rewrite Hnet.
      replace (nth 0 (skipn n (net w)) (NetFail "ConnectionError"))
        with (nth (n + 0) (net w) (NetFail "ConnectionError"))
        by (symmetry; apply nth_skipn).
      rewrite Nat.add_0_r. exact Hq. }
    destruct (loop_try_quiet w') as (w1 & Htry & (Hc1 & Hct1 & Hth1 & _ & Hfl1) & Hp1);
      [congruence | assumption | assumption |].
    destruct (loop_wait_returns w1)
      as (b & w2 & Hwait & (Hc2 & Hct2 & Hth2 & _ & Hfl2) & _ & Hp2);
      [congruence |].
    exists w2. split.
    + replace (S n) with (n + 1)%nat by lia.
      rewrite _heartbeat_loop_app, Hloop.
      cbn [_heartbeat_loop]. unfold bind at 1, get_client at 1. rewrite Hc, Hrun.
      unfold bind at 1. rewrite Htry. unfold bind at 1. rewrite Hwait. reflexivity.
    + repeat split; try congruence.
      rewrite Hp2, Hp1, Hposts. lia.
Qed.

End Loop.

Lemma loop_survives_failures_witness :
  let w := loop_world three_failures_then_success in
  (exists w', _heartbeat_loop patched_runtime 3 w = (Ok StillLooping, w') /\
     _running (client w') = true /\ client w' = client w /\
     threads w' = threads w /\ failures_logged w' = 3%nat) /\
  (exists w'', _heartbeat_loop patched_runtime 4 w = (Ok StillLooping, w'') /\
     _running (client w'') = true /\ client w'' = client w /\
     threads w'' = threads w /\ failures_logged w'' = 3%nat /\
     length (posts w'') = 4%nat).
Proof.
  intros w.
  destruct (loop_survives_failures patched_runtime 3 w) as [Hfail Hnext].
  - reflexivity.
  - reflexivity.
  - intros i Hi. destruct i as [|[|[|i]]]; try reflexivity. lia.
  - split; [exact Hfail |]. apply Hnext; reflexivity.
Defined.

Section Drain.

Variable rt : Runtime.


End Drain.



(** The drain answer on the running loop of the patched worker: the
    loop's thread ends, but only after the failed self-join has been
    reported as a failed heartbeat. *)
Example drain_ends_loop_with_report :
  let w := run patched_runtime [CallStart; Step 1; Step 1; Step 1; Step 1]
             (new_world registered_client [drain_answer]) in
  active_loops w = [] /\
  _running (client w) = false /\
  head (log w) = Some (EvPrint "Heartbeat failed: "
                         (ShownExn (RuntimeError "cannot join current thread"))).
Proof. vm_compute. repeat split; reflexivity. Qed.

Section Switches.

Variable rt : Runtime.

(** [start_heartbeat_loop] on a running loop does nothing. *)
Lemma start_when_running w :
  _running (client w) = true -> start_heartbeat_loop w = (Ok tt, w).
Proof.
  intros Hrun. unfold start_heartbeat_loop, bind, get_client. rewrite Hrun. reflexivity.
Qed.

(** [stop_heartbeat_loop] on a stopped loop does nothing. *)
Lemma stop_when_stopped w :
  _running (client w) = false -> stop_heartbeat_loop w = (Ok tt, w).
Proof.
  intros Hrun. unfold stop_heartbeat_loop, bind, get_client. rewrite Hrun. reflexivity.
Qed.

(** After a start the loop is flagged as running, whatever it was. *)
Lemma start_sets_running w :
  _running (client (snd (start_heartbeat_loop w))) = true.
Proof.
  unfold start_heartbeat_loop, bind, get_client.
  destruct (_running (client w)) eqn:Hrun; [exact Hrun | reflexivity].
Qed.

(** Two starts in succession are one start: the second is a no-op, and
    on a new client exactly one task is active. *)
Lemma start_twice c server :
  _running c = false ->
  run rt [CallStart; CallStart] (new_world c server)
  = run rt [CallStart] (new_world c server) /\
  active_loops (run rt [CallStart; CallStart] (new_world c server)) = [1%nat].
Proof.
  intros Hrun. unfold run. cbn [fold_left act].
  rewrite (start_when_running (snd (start_heartbeat_loop (new_world c server))))
    by apply start_sets_running.
  split; [reflexivity |].
  destruct c. cbn in Hrun. subst. vm_compute. reflexivity.
Qed.

(** C6, on the code. The guard of [start_heartbeat_loop] looks at the
    flag [_running] only. A stop whose join returns while the loop's
    thread is still inside its heartbeat attempt leaves that thread
    alive with the flag down; the next start raises the flag again and
    starts a second thread, and both are active. *)
Theorem second_loop_beside_unfinished_one c server :
  _running c = false ->
  let w := run rt [CallStart; Step 1; CallStop; CallStart] (new_world c server) in
  active_loops w = [2%nat; 1%nat] /\
  threads w !! 1%nat = Some InTry /\
  threads w !! 2%nat = Some AtTest /\
  _running (client w) = true /\
  _stop_event (client w) = false.
Proof.
  intros Hrun. destruct c. cbn in Hrun. subst. vm_compute.
  repeat split; reflexivity.
Qed.

End Switches.

Lemma second_loop_beside_unfinished_one_witness :
  let w := run host_runtime [CallStart; Step 1; CallStop; CallStart]
             (new_world registered_client []) in
  active_loops w = [2%nat; 1%nat] /\
  threads w !! 1%nat = Some InTry /\
  threads w !! 2%nat = Some AtTest /\
  _running (client w) = true /\
  _stop_event (client w) = false.
Proof.
  apply (second_loop_beside_unfinished_one host_runtime registered_client []).
  reflexivity.
Defined.

(** On the stock worker the first thread then goes on: its attempt ends,
    its wait runs out (the event was cleared by the second start), its
    test finds the flag up, and it is in its next attempt beside the
    second thread. *)
Example unfinished_loop_goes_on :
  let w := run host_runtime
             [CallStart; Step 1; CallStop; CallStart; Step 1; Step 1; Step 1; Step 2]
             (new_world registered_client []) in
  active_loops w = [2%nat; 1%nat] /\
  threads w !! 1%nat = Some InTry /\
  threads w !! 2%nat = Some InTry /\
  _running (client w) = true.
Proof. vm_compute. repeat split; reflexivity. Qed.

(** * Further properties of the calls *)

Section FurtherCalls.

Variable rt : Runtime.

(** Once its request is built, [register] is the POST followed by the
    response handler. *)
Lemma register_after_request st ver kwargs w req :
  fst (RegisterRequest_new rt st ver (capabilities (client w)) (resources (client w))
         (performance (client w)) kwargs w) = Ok req ->
  register rt st ver kwargs w
  = bind (requests_post (register_url (client w)) (asdict_RegisterRequest req) 10)
         register_response w.
Proof.
  intros Hreq.
  pose proof (RegisterRequest_new_world rt st ver (capabilities (client w))
                (resources (client w)) (performance (client w)) kwargs w) as Hw.
  unfold register. unfold bind at 1, get_client at 1. unfold bind at 1.
  destruct (RegisterRequest_new _ _ _ _ _ _ _ _) as [r w1].
  cbn [fst snd] in Hreq, Hw. subst r w1. reflexivity.
Qed.

(** When the request cannot be built, [register] stops there. *)
Lemma register_without_request st ver kwargs w e :
  fst (RegisterRequest_new rt st ver (capabilities (client w)) (resources (client w))
         (performance (client w)) kwargs w) = Raise e ->
  register rt st ver kwargs w = (Raise e, w).
Proof.
  intros Hreq.
  pose proof (RegisterRequest_new_world rt st ver (capabilities (client w))
                (resources (client w)) (performance (client w)) kwargs w) as Hw.
  unfold register. unfold bind at 1, get_client at 1. unfold bind at 1.
  destruct (RegisterRequest_new _ _ _ _ _ _ _ _) as [r w1].
  cbn [fst snd] in Hreq, Hw. subst r w1. reflexivity.
Qed.

(** With the identity present, [shutdown] is its POST followed by the
    reading of the answer. *)
Lemma shutdown_after_check reason w :
  identity_absent (client w) = false ->
  shutdown reason w
  = bind (requests_post (shutdown_url (client w)) (shutdown_body (client w) reason) 5)
         (fun response =>
            let* _ := raise_for_status response in
            let* body := response_json response in
            lift (getitem body "data")) w.
Proof.
  unfold identity_absent. intros Hid.
  unfold shutdown. unfold bind at 1, get_client at 1. rewrite Hid. reflexivity.
Qed.

(** An answer that [requests] rejects by itself is rejected the same way
    by the two response handlers, before they look at the body. *)
Lemma handlers_transport_error status body e w :
  transport_error (NetResp status body) = Some e ->
  register_response {| status_code := status; json_body := body |} w = (Raise e, w) /\
  heartbeat_response rt {| status_code := status; json_body := body |} w = (Raise e, w).
Proof.
  unfold transport_error, register_response, heartbeat_response, raise_for_status,
    response_json.
  cbn [status_code json_body]. unfold_monad.
  destruct ((400 <=? status) && (status <? 600)).
  - intros [= <-]. split; reflexivity.
  - destruct body; [discriminate |]. intros [= <-]. split; reflexivity.
Qed.

(** X1. A connection failure, a 4xx/5xx status or an undecodable body
    comes out of [register], [heartbeat] and [shutdown] as the
    exception [requests] raised, after exactly one request, and the
    client is as it was before the call. *)
Theorem transport_errors_propagate st ver kwargs hb_kwargs reason w o rest e req hreq :
  net w = o :: rest ->
  transport_error o = Some e ->
  (fst (RegisterRequest_new rt st ver (capabilities (client w)) (resources (client w))
          (performance (client w)) kwargs w) = Ok req ->
   register rt st ver kwargs w
   = (Raise e, after_post (register_url (client w)) (asdict_RegisterRequest req) 10 rest w)) /\
  (identity_absent (client w) = false ->
   fst (heartbeat_request rt hb_kwargs w) = Ok hreq ->
   fst (heartbeat rt hb_kwargs w) = Raise e /\
   client (snd (heartbeat rt hb_kwargs w)) = client w /\
   net (snd (heartbeat rt hb_kwargs w)) = rest /\
   log (snd (heartbeat rt hb_kwargs w))
   = EvPost (heartbeat_url (client w)) (asdict_HeartbeatRequest hreq) 5 :: log w) /\
  (identity_absent (client w) = false ->
   shutdown reason w
   = (Raise e, after_post (shutdown_url (client w)) (shutdown_body (client w) reason) 5 rest w)).
Proof.
  intros Hnet Herr. split; [| split].
  - intros Hreq. rewrite (register_after_request st ver kwargs w req Hreq).
    unfold bind at 1, requests_post. rewrite Hnet.
    destruct o as [kind|status body].
    + cbn in Herr. injection Herr as <-. reflexivity.
    + destruct (handlers_transport_error status body e
                  (after_post (register_url (client w)) (asdict_RegisterRequest req) 10 rest w)
                  Herr) as [Hr _].
      unfold after_post in Hr at 1. rewrite Hr. reflexivity.
  - intros Hid Hreq.
    pose proof (heartbeat_request_frame rt hb_kwargs w) as Hfr. cbn zeta in Hfr.
    destruct Hfr as (Hc & _ & _ & _ & Hn & Hl).
    assert (Heq : heartbeat rt hb_kwargs w
                  = (Raise e, after_post (heartbeat_url (client w))
                                (asdict_HeartbeatRequest hreq) 5 rest
                                (snd (heartbeat_request rt hb_kwargs w)))).
    { rewrite (heartbeat_after_request rt hb_kwargs w hreq Hid Hreq).
      unfold bind at 1, requests_post. rewrite Hn, Hnet.
      destruct o as [kind|status body].
      - cbn in Herr. injection Herr as <-. reflexivity.
      - match goal with
        | |- context [heartbeat_response rt ?r ?w0] =>
            destruct (handlers_transport_error status body e w0 Herr) as [_ Hh];
            rewrite Hh
        end.
        reflexivity. }
    rewrite Heq. cbn [fst snd after_post client net log]. rewrite Hl. auto.
  - intros Hid. rewrite (shutdown_after_check reason w Hid).
    unfold bind at 1, requests_post. rewrite Hnet.
    destruct o as [kind|status body].
    + cbn in Herr. injection Herr as <-. reflexivity.
    + unfold transport_error in Herr. unfold raise_for_status, response_json.
      cbn [status_code json_body]. unfold_monad.
      destruct ((400 <=? status) && (status <? 600)).
      * injection Herr as <-. reflexivity.
      * destruct body; [discriminate |]. injection Herr as <-. reflexivity.
Qed.

(** X2. A success answer whose data object has a [service_id] but no
    [heartbeat_interval] makes [register] raise [KeyError], yet the
    [service_id] has been stored by then: the interval and the token
    are the old ones. *)
Theorem register_stores_before_failing st ver kwargs w req status body d sid rest :
  fst (RegisterRequest_new rt st ver (capabilities (client w)) (resources (client w))
         (performance (client w)) kwargs w) = Ok req ->
  net w = NetResp status (Some (PDict body)) :: rest ->
  200 <= status < 300 ->
  code_is_zero body = true ->
  body !! "data" = Some (PDict d) ->
  d !! "service_id" = Some sid ->
  d !! "heartbeat_interval" = None ->
  fst (register rt st ver kwargs w) = Raise (KeyError "heartbeat_interval") /\
  service_id (client (snd (register rt st ver kwargs w))) = sid /\
  heartbeat_interval (client (snd (register rt st ver kwargs w)))
  = heartbeat_interval (client w) /\
  token (client (snd (register rt st ver kwargs w))) = token (client w).
Proof.
  intros Hreq Hnet Hst Hzero Hdata Hsid Hhb.
  assert (Heq : register rt st ver kwargs w
                = (Raise (KeyError "heartbeat_interval"),
                   mkWorld (set_service_id sid (client w)) (current_thread w) (threads w)
                     (next_tid w) rest (probes w)
                     (EvPost (register_url (client w)) (asdict_RegisterRequest req) 10
                        :: log w))).
  { rewrite (register_after_request st ver kwargs w req Hreq).
    unfold bind at 1, requests_post. rewrite Hnet.
    unfold register_response. unfold bind at 1.
    rewrite raise_for_status_2xx by exact Hst.
    unfold response_json, get, getitem. step_monad. cbn [json_body].
    unfold code_is_zero in Hzero. rewrite Hzero, Hdata, Hsid, Hhb. reflexivity. }
  rewrite Heq. repeat split; reflexivity.
Qed.

(** A keyword that is no field of the request is refused. *)
Lemma check_kwargs_unknown (kwargs : gmap string py) k v :
  kwargs !! k = Some v ->
  string_in k RegisterRequest_free_fields = false ->
  exists msg, check_kwargs kwargs = Raise (TypeError msg).
Proof.
  intros Hk Hfree. unfold check_kwargs.
  destruct (filter _ _) as [|k' l] eqn:Hf.
  - assert (Hin : k ∈ filter (fun k => negb (string_in k RegisterRequest_free_fields))
                             (map_to_list kwargs).*1).
    { apply list_elem_of_filter. split; [rewrite Hfree; exact I |].
      apply list_elem_of_fmap. exists (k, v). split; [reflexivity |].
      apply elem_of_map_to_list. exact Hk. }
    rewrite Hf in Hin. inversion Hin.
  - destruct (string_in k' RegisterRequest_bound_fields); eauto.
Qed.

(** X3. A keyword argument of [register] other than [hostname],
    [ip_address] and [port] is a [TypeError], raised before anything is
    sent: the world is untouched. *)
Theorem register_unknown_keyword st ver (kwargs : gmap string py) k v w :
  kwargs !! k = Some v ->
  string_in k RegisterRequest_free_fields = false ->
  exists msg, register rt st ver kwargs w = (Raise (TypeError msg), w).
Proof.
  intros Hk Hfree.
  destruct (check_kwargs_unknown kwargs k v Hk Hfree) as [msg Hmsg].
  exists msg. apply register_without_request.
  unfold RegisterRequest_new. unfold bind at 1, lift. rewrite Hmsg. reflexivity.
Qed.

(** X4. The addresses of a registration. A hostname and an IP address
    given by the caller are sent as they are, without any lookup; when
    neither is given the hostname is the machine's and the address its
    resolution, and a failed resolution raises before anything is sent.
    The port is 8080 unless given. *)
Theorem register_request_addresses st ver (kwargs : gmap string py) w :
  check_kwargs kwargs = Ok tt ->
  (forall h ip, kwargs !! "hostname" = Some (PStr h) -> h <> "" ->
     kwargs !! "ip_address" = Some (PStr ip) -> ip <> "" ->
     exists req, fst (RegisterRequest_new rt st ver (capabilities (client w))
                        (resources (client w)) (performance (client w)) kwargs w) = Ok req /\
       rr_hostname req = PStr h /\ rr_ip_address req = PStr ip /\
       rr_port req = kwargs_get kwargs "port" (PInt 8080)) /\
  (kwargs !! "hostname" = None -> kwargs !! "ip_address" = None ->
   forall ip, gethostbyname rt (gethostname rt) = Some ip ->
     exists req, fst (RegisterRequest_new rt st ver (capabilities (client w))
                        (resources (client w)) (performance (client w)) kwargs w) = Ok req /\
       rr_hostname req = PStr (gethostname rt) /\ rr_ip_address req = PStr ip /\
       rr_port req = kwargs_get kwargs "port" (PInt 8080)) /\
  (kwargs !! "hostname" = None -> kwargs !! "ip_address" = None ->
   gethostbyname rt (gethostname rt) = None ->
   register rt st ver kwargs w = (Raise gaierror, w)).
Proof.
  intros Hk. split; [| split].
  - intros h ip Hh Hne Hip Hnip.
    assert (Eh : kwargs_get kwargs "hostname" (PStr "") = PStr h)
      by (unfold kwargs_get; rewrite Hh; reflexivity).
    assert (Ei : kwargs_get kwargs "ip_address" (PStr "") = PStr ip)
      by (unfold kwargs_get; rewrite Hip; reflexivity).
    apply String.eqb_neq in Hne, Hnip.
    unfold RegisterRequest_new. unfold_monad. rewrite Hk, Eh, Ei.
    cbn [eq_str]. rewrite Hne, Hnip.
    eexists. split; [reflexivity |]. cbn. auto.
  - intros Hh Hip ip Hres.
    assert (Eh : kwargs_get kwargs "hostname" (PStr "") = PStr "")
      by (unfold kwargs_get; rewrite Hh; reflexivity).
    assert (Ei : kwargs_get kwargs "ip_address" (PStr "") = PStr "")
      by (unfold kwargs_get; rewrite Hip; reflexivity).
    unfold RegisterRequest_new. unfold_monad. rewrite Hk, Eh, Ei.
    cbn [eq_str String.eqb]. rewrite Hres.
    eexists. split; [reflexivity |]. cbn. auto.
  - intros Hh Hip Hres. apply register_without_request.
    assert (Eh : kwargs_get kwargs "hostname" (PStr "") = PStr "")
      by (unfold kwargs_get; rewrite Hh; reflexivity).
    assert (Ei : kwargs_get kwargs "ip_address" (PStr "") = PStr "")
      by (unfold kwargs_get; rewrite Hip; reflexivity).
    unfold RegisterRequest_new. unfold_monad. rewrite Hk, Eh, Ei.
    cbn [eq_str String.eqb]. rewrite Hres. reflexivity.
Qed.

(** A float equals the integer 0 exactly when it is a zero. *)
Lemma float_eq_Z_zero f :
  float_eq_Z f 0 = true <-> exists s, f = S754_zero s.
Proof.
  split.
  - destruct f as [s| | |s m e]; cbn [float_eq_Z]; try discriminate; [eauto |].
    intros H. exfalso.
    set (v := if s then Z.neg m else Z.pos m) in *.
    assert (Hv : v <> 0) by (subst v; destruct s; discriminate).
    destruct (0 <=? e) eqn:He.
    + apply Z.leb_le in He. apply Z.eqb_eq in H.
      apply Z.mul_eq_0 in H. destruct H as [H|H]; [contradiction |].
      pose proof (Z.pow_pos_nonneg 2 e). lia.
    + apply andb_true_iff in H. destruct H as [Hm Hd].
      apply Z.eqb_eq in Hm, Hd.
      pose proof (Z_div_mod_eq_full v (2 ^ (- e))) as Hdm.
      rewrite Hm, Hd in Hdm. lia.
  - intros [s ->]. reflexivity.
Qed.

(** X5. The success test [data.get("code") == 0] holds for exactly three
    kinds of code: the integer 0, [false], and a float zero. A body
    without a code, or with any other code (1, the string "0", [null])
    is a rejection. *)
Theorem code_is_zero_iff (body : gmap string py) :
  code_is_zero body = true <->
  body !! "code" = Some (PInt 0) \/ body !! "code" = Some (PBool false) \/
  exists s, body !! "code" = Some (PFloat (S754_zero s)).
Proof.
  unfold code_is_zero. split.
  - destruct (body !! "code") as [[ |b|z|f| | | | ]|]; cbn; try discriminate.
    + destruct b; [discriminate | auto].
    + intros H. apply Z.eqb_eq in H. subst. auto.
    + intros H. apply float_eq_Z_zero in H. destruct H as [s ->]. eauto.
  - intros [-> | [-> | [s ->]]]; reflexivity.
Qed.

(** X6. [heartbeat] reads three keywords only: two calls whose keywords
    agree on [queue_size], [processed_count] and [error_count] do the
    same, whatever else they are given. *)
Theorem heartbeat_reads_three_counters (kw kw' : gmap string py) w :
  kw !! "queue_size" = kw' !! "queue_size" ->
  kw !! "processed_count" = kw' !! "processed_count" ->
  kw !! "error_count" = kw' !! "error_count" ->
  heartbeat rt kw w = heartbeat rt kw' w.
Proof.
  intros Hq Hp He.
  unfold heartbeat, heartbeat_request, kwargs_get. rewrite Hq, Hp, He. reflexivity.
Qed.

(** X7. The request a heartbeat builds. It carries the stored
    [service_id] and [token] and the three counters (0 when not given);
    the load is one CPU reading divided by 100, the CPU utilisation a
    second, later reading, then come the GPU and the memory reading: four
    probes in all. *)
Theorem heartbeat_request_fields (kw : gmap string py) w req :
  fst (heartbeat_request rt kw w) = Ok req ->
  hr_service_id req = service_id (client w) /\
  hr_token req = token (client w) /\
  hr_queue_size req = default (PInt 0) (kw !! "queue_size") /\
  hr_processed_count req = default (PInt 0) (kw !! "processed_count") /\
  hr_error_count req = default (PInt 0) (kw !! "error_count") /\
  hr_current_load req = SFdiv prec emax (cpu_percent rt (probes w)) (float_of_Z 100) /\
  hr_cpu_utilization req = cpu_percent rt (S (probes w)) /\
  hr_gpu_utilization req = fst_gpu_load (GPUtil rt (S (S (probes w)))) /\
  hr_memory_usage req = virtual_memory_used rt (S (S (S (probes w)))) /\
  isoformat (time_call rt "utcnow") = Ok (hr_timestamp req) /\
  probes (snd (heartbeat_request rt kw w)) = (probes w + 4)%nat.
Proof.
  unfold heartbeat_request, psutil_cpu_percent, psutil_virtual_memory_used,
    _get_gpu_utilization, HeartbeatRequest_new, next_probe, time_attr_call,
    kwargs_get, fst_gpu_load.
  unfold_monad. cbn.
  destruct (string_in "utcnow" (time_dir rt)); cbn;
    destruct (GPUtil rt _) as [| |[|load loads]]; cbn; try discriminate;
    (destruct (isoformat (time_call rt "utcnow")) as [ts|]; cbn; [| discriminate]);
    intros [= <-]; cbn; rewrite Nat.add_comm; auto 15.
Qed.

(** X8. The GPU probe never fails a heartbeat: [_get_gpu_utilization]
    always returns, with 0.0 when [GPUtil] is missing, raises or finds
    no GPU, and with 100 times the load of the first GPU otherwise; it
    touches nothing but the probe counter. *)
Theorem gpu_utilization_never_raises w :
  exists f, _get_gpu_utilization rt w
            = (Ok f, mkWorld (client w) (current_thread w) (threads w) (next_tid w)
                             (net w) (S (probes w)) (log w)) /\
    (GPUtil rt (probes w) = GpuImportError \/ GPUtil rt (probes w) = GpuFails \/
     GPUtil rt (probes w) = GpuLoads [] -> f = S754_zero false) /\
    (forall load loads, GPUtil rt (probes w) = GpuLoads (load :: loads) ->
       f = SFmul prec emax load (float_of_Z 100)).
Proof.
  unfold _get_gpu_utilization, next_probe. unfold_monad. cbn [probes].
  destruct (GPUtil rt (probes w)) as [| |[|load loads]];
    eexists; (split; [reflexivity |]); split;
    try (intros [H|[H|H]]; congruence); try (intros ? ? H; congruence);
    reflexivity.
Qed.

Lemma switch_step_refl w w' :
  client w' = client w -> threads w' = threads w -> switch_step w w'.
Proof.
  intros Hc Ht. unfold switch_step, same_but_switches. rewrite Hc. tauto.
Qed.

Lemma switch_step_trans w1 w2 w3 :
  switch_step w1 w2 -> switch_step w2 w3 -> switch_step w1 w3.
Proof.
  unfold switch_step, same_but_switches, stop_requested.
  intros (S1 & T1 & [C1|C1]) (S2 & T2 & [C2|C2]);
    (split; [intuition congruence |]); (split; [congruence |]).
  - left. congruence.
  - right. rewrite <- C1. exact C2.
  - right. rewrite C2. exact C1.
  - destruct C1 as (_ & R2 & _). destruct C2 as (R2' & _). congruence.
Qed.

Lemma hooks_absent_step w w' :
  switch_step w w' -> hooks_absent (client w) -> hooks_absent (client w').
Proof.
  unfold switch_step, same_but_switches, hooks_absent. intuition congruence.
Qed.

Lemma keeps_client_bind {A B} (m : M A) (k : A -> M B) :
  keeps_client m -> (forall a, keeps_client (k a)) -> keeps_client (bind m k).
Proof.
  intros Hm Hk w Hw. unfold bind. specialize (Hm w Hw).
  destruct (m w) as [[a|e] w1]; cbn [snd] in *; [| exact Hm].
  eapply switch_step_trans; [exact Hm |].
  apply Hk. eapply hooks_absent_step; eassumption.
Qed.

Lemma keeps_client_lift {A} (r : Res A) : keeps_client (lift r).
Proof. intros w _. apply switch_step_refl; reflexivity. Qed.

Lemma keeps_client_ret {A} (a : A) : keeps_client (ret a).
Proof. intros w _. apply switch_step_refl; reflexivity. Qed.

Lemma keeps_client_raise {A} (e : exn) : keeps_client (@raise A e).
Proof. intros w _. apply switch_step_refl; reflexivity. Qed.

Lemma keeps_client_get_client : keeps_client get_client.
Proof. intros w _. apply switch_step_refl; reflexivity. Qed.

Lemma keeps_client_emit ev : keeps_client (emit ev).
Proof. intros w _. apply switch_step_refl; reflexivity. Qed.

Lemma keeps_client_post url body timeout : keeps_client (requests_post url body timeout).
Proof.
  intros w _. unfold requests_post.
  destruct (net w) as [|[kind|status b] rest]; apply switch_step_refl; reflexivity.
Qed.

(** Stopping changes the two switches only, and only downwards. *)
Lemma keeps_client_stop : keeps_client stop_heartbeat_loop.
Proof.
  intros w _. unfold stop_heartbeat_loop, Thread_join. unfold_monad. cbn.
  destruct (_running (client w)) eqn:Hrun; cbn;
    [| apply switch_step_refl; reflexivity].
  unfold switch_step, same_but_switches, stop_requested.
  destruct (_thread (client w)) as [t|] eqn:Hth; cbn;
    [destruct (Nat.eqb t (current_thread w)) |]; cbn; rewrite ?Hth; tauto.
Qed.

Lemma keeps_client_config_update cu : keeps_client (_handle_config_update rt cu).
Proof.
  intros w Hw. unfold _handle_config_update, bind, get_client.
  destruct Hw as [-> _]. apply switch_step_refl; reflexivity.
Qed.

Lemma keeps_client_drain : keeps_client (_handle_drain_request rt).
Proof.
  intros w Hw. pose proof Hw as [_ Hsd].
  unfold _handle_drain_request. unfold bind at 1, get_client at 1. rewrite Hsd.
  exact (keeps_client_bind
           (print "Drain requested, shutting down gracefully..." ShownNothing)
           (fun _ => stop_heartbeat_loop)
           (keeps_client_emit _) (fun _ => keeps_client_stop) w Hw).
Qed.

(** The handlers of a response, on a client without hooks: all that can
    happen to the client is the stop of the drain. *)
Lemma keeps_client_heartbeat_response response :
  keeps_client (heartbeat_response rt response).
Proof.
  unfold heartbeat_response.
  apply keeps_client_bind.
  { unfold raise_for_status. destruct (_ && _);
      [apply keeps_client_raise | apply keeps_client_ret]. }
  intros _. apply keeps_client_bind.
  { unfold response_json. destruct (json_body response);
      [apply keeps_client_ret | apply keeps_client_raise]. }
  intros data. apply keeps_client_bind; [apply keeps_client_lift |].
  intros code. apply keeps_client_bind; [| intros _; apply keeps_client_lift].
  destruct (eq_int code 0); [| apply keeps_client_ret].
  apply keeps_client_bind; [apply keeps_client_lift |].
  intros hd. apply keeps_client_bind; [apply keeps_client_lift |].
  intros cu. apply keeps_client_bind.
  { destruct (truthy cu); [| apply keeps_client_ret].
    apply keeps_client_bind; [apply keeps_client_lift |].
    intros cu'. apply keeps_client_config_update. }
  intros _. apply keeps_client_bind; [apply keeps_client_lift |].
  intros dr. destruct (truthy dr); [apply keeps_client_drain | apply keeps_client_ret].
Qed.

(** X9. With no hook registered, a [heartbeat] call cannot change the
    identity, the URL, the specifications, the thread or the hooks of the
    client, nor the thread table, whatever the server answers: either
    the client is exactly as before, or the loop was running and has
    been told to stop (flag down, event set) by a drain request. *)
Theorem heartbeat_keeps_client kwargs w :
  hooks_absent (client w) ->
  let w' := snd (heartbeat rt kwargs w) in
  same_but_switches (client w) (client w') /\ threads w' = threads w /\
  (client w' = client w \/ (_running (client w) = true /\ stop_requested (client w'))).
Proof.
  revert w. change (keeps_client (heartbeat rt kwargs)).
  unfold heartbeat.
  apply keeps_client_bind; [apply keeps_client_get_client |].
  intros self. destruct (negb _); [apply keeps_client_raise |].
  apply keeps_client_bind.
  { intros w _. pose proof (heartbeat_request_frame rt kwargs w) as Hfr.
    cbn zeta in Hfr. apply switch_step_refl; tauto. }
  intros request. apply keeps_client_bind; [apply keeps_client_post |].
  intros response. apply keeps_client_heartbeat_response.
Qed.

(** The response handler up to the dispatch of a success body. *)
Lemma heartbeat_response_dispatch status body hd w :
  200 <= status < 300 ->
  code_is_zero body = true ->
  body !! "data" = Some (PDict hd) ->
  heartbeat_response rt {| status_code := status; json_body := Some (PDict body) |} w
  = (let* _ :=
       (let* _ :=
          if truthy (default PNone (hd !! "config_update")) then
            let* cu := lift (getitem (PDict hd) "config_update") in
            _handle_config_update rt cu
          else ret tt in
        if truthy (default PNone (hd !! "drain_requested"))
        then _handle_drain_request rt else ret tt) in
     lift (Ok (PDict hd))) w.
Proof.
  intros Hst Hcode Hdata. unfold heartbeat_response. unfold bind at 1.
  rewrite raise_for_status_2xx by exact Hst.
  unfold response_json, get, getitem at 1 3. cbn [json_body].
  unfold code_is_zero in Hcode.
  unfold bind, ret, lift. rewrite Hcode, Hdata. reflexivity.
Qed.

(** X10. A success answer that carries a [config_update] and asks for no
    drain. Without a hook the update is printed and the data returned,
    with nothing else changed. With a hook, the hook is called once with
    exactly that payload, and the call ends as the hook does: the data
    when it returns, its exception when it raises. *)
Theorem config_update_dispatch status body hd cu w :
  200 <= status < 300 ->
  code_is_zero body = true ->
  body !! "data" = Some (PDict hd) ->
  hd !! "config_update" = Some cu -> truthy cu = true ->
  truthy (default PNone (hd !! "drain_requested")) = false ->
  (on_config_update (client w) = None ->
   heartbeat_response rt {| status_code := status; json_body := Some (PDict body) |} w
   = (Ok (PDict hd),
      mkWorld (client w) (current_thread w) (threads w) (next_tid w) (net w) (probes w)
              (EvPrint "Config update received: " (ShownPy cu) :: log w))) /\
  (forall h, on_config_update (client w) = Some h ->
   heartbeat_response rt {| status_code := status; json_body := Some (PDict body) |} w
   = let '(r, w') :=
       call_hook rt h [cu]
         (mkWorld (client w) (current_thread w) (threads w) (next_tid w) (net w)
                  (probes w) (EvHook h [cu] :: log w)) in
     (match r with Ok _ => Ok (PDict hd) | Raise e => Raise e end, w')).
Proof.
  intros Hst Hcode Hdata Hcu Htr Hdr.
  rewrite (heartbeat_response_dispatch status body hd w Hst Hcode Hdata).
  rewrite Hdr, Hcu. cbn [from_option id]. rewrite Htr.
  unfold getitem. rewrite Hcu.
  unfold _handle_config_update, invoke_hook. unfold_monad.
  split.
  - intros ->. reflexivity.
  - intros h ->. cbn.
    destruct (call_hook rt h [cu] _) as [[[]|e] w']; reflexivity.
Qed.

(** X11. A drain request with no hook, handled by a thread other than
    the loop's (a direct [heartbeat] call): the loop is told to stop,
    its thread is joined with a 5 second timeout, and the data is
    returned. When the loop is not running, the request is printed and
    nothing else happens. *)
Theorem drain_from_another_thread status body hd dr w :
  200 <= status < 300 ->
  code_is_zero body = true ->
  body !! "data" = Some (PDict hd) ->
  truthy (default PNone (hd !! "config_update")) = false ->
  hd !! "drain_requested" = Some dr -> truthy dr = true ->
  on_shutdown (client w) = None ->
  (forall t, _running (client w) = true -> _thread (client w) = Some t ->
     t <> current_thread w ->
     heartbeat_response rt {| status_code := status; json_body := Some (PDict body) |} w
     = (Ok (PDict hd),
        mkWorld (set_stop_event true (set_running false (client w)))
                (current_thread w) (threads w) (next_tid w) (net w) (probes w)
                (EvJoin t 5 :: EvPrint "Drain requested, shutting down gracefully..."
                                 ShownNothing :: log w))) /\
  (_running (client w) = false ->
   heartbeat_response rt {| status_code := status; json_body := Some (PDict body) |} w
   = (Ok (PDict hd),
      mkWorld (client w) (current_thread w) (threads w) (next_tid w) (net w) (probes w)
              (EvPrint "Drain requested, shutting down gracefully..." ShownNothing
                 :: log w))).
Proof.
  intros Hst Hcode Hdata Hcu Hdr Htr Hhook.
  rewrite (heartbeat_response_dispatch status body hd w Hst Hcode Hdata).
  rewrite Hcu, Hdr. cbn [from_option id]. rewrite Htr.
  unfold _handle_drain_request, stop_heartbeat_loop, Thread_join. unfold_monad.
  cbn. rewrite Hhook. split.
  - intros t Hrun Hth Hne. rewrite Hrun. cbn. rewrite Hth. cbn.
    apply Nat.eqb_neq in Hne. rewrite Hne. reflexivity.
  - intros Hrun. rewrite Hrun. reflexivity.
Qed.

(** X12. With the identity present, [shutdown] sends one request, to the
    shutdown URL with a 5 second timeout, whose body holds the stored
    [service_id] and the reason; on a 2xx answer with a ["data"] member
    it returns that member, whatever status code the body carries, and
    the client keeps its identity. *)
Theorem shutdown_sends_identity reason w status body v rest :
  identity_absent (client w) = false ->
  net w = NetResp status (Some (PDict body)) :: rest ->
  200 <= status < 300 ->
  body !! "data" = Some v ->
  shutdown reason w
  = (Ok v, after_post (shutdown_url (client w)) (shutdown_body (client w) reason) 5 rest w) /\
  getitem (shutdown_body (client w) reason) "service_id" = Ok (service_id (client w)) /\
  getitem (shutdown_body (client w) reason) "reason" = Ok (PStr reason) /\
  identity_absent (client (snd (shutdown reason w))) = false.
Proof.
  intros Hid Hnet Hst Hdata.
  assert (Heq : shutdown reason w
                = (Ok v, after_post (shutdown_url (client w))
                           (shutdown_body (client w) reason) 5 rest w)).
  { rewrite (shutdown_after_check reason w Hid).
    unfold bind at 1, requests_post. rewrite Hnet.
    unfold bind at 1. rewrite raise_for_status_2xx by exact Hst.
    unfold response_json, getitem. unfold_monad. cbn [json_body]. rewrite Hdata.
    reflexivity. }
  rewrite Heq. cbn [snd after_post client].
  repeat split; try assumption; reflexivity.
Qed.

End FurtherCalls.

(** * Further properties of the loop and its switches *)

Section FurtherLoop.

Variable rt : Runtime.

(** After a stop the flag is down, whatever it was and even when the
    join raises. *)
Lemma stop_clears_running w :
  _running (client (snd (stop_heartbeat_loop w))) = false.
Proof.
  unfold stop_heartbeat_loop, Thread_join. unfold_monad. cbn.
  destruct (_running (client w)) eqn:Hrun; cbn; [| exact Hrun].
  destruct (_thread (client w)) as [t|]; cbn;
    [destruct (Nat.eqb t (current_thread w)) |]; reflexivity.
Qed.

(** A stop returns normally unless the loop is running and its thread is
    the caller. *)
Lemma stop_returns w :
  _running (client w) = false \/ _thread (client w) <> Some (current_thread w) ->
  fst (stop_heartbeat_loop w) = Ok tt.
Proof.
  unfold stop_heartbeat_loop, Thread_join. unfold_monad. cbn.
  destruct (_running (client w)); cbn; [| reflexivity].
  intros [H|H]; [discriminate |].
  destruct (_thread (client w)) as [t|]; cbn; [| reflexivity].
  destruct (Nat.eqb_spec t (current_thread w)) as [->|]; [contradiction | reflexivity].
Qed.

(** X13. Leaving a [with client:] block always leaves the loop flagged
    as stopped, whether the body returned or raised. What the block
    gives is what the body gave (its value, or its exception, which
    [__exit__] does not swallow), unless the stop itself raises, which
    happens only when the block is left by the loop's own thread while
    the loop runs. *)
Theorem with_client_stops_loop {A} (body : M A) w :
  _running (client (snd (with_client body w))) = false /\
  (_running (client (snd (body w))) = false \/
   _thread (client (snd (body w))) <> Some (current_thread (snd (body w))) ->
   fst (with_client body w) = fst (body w)).
Proof.
  unfold with_client, client_enter, get_client, client_exit.
  destruct (body w) as [r w1]. cbn [fst snd].
  pose proof (stop_clears_running w1) as Hclr.
  pose proof (stop_returns w1) as Hret.
  destruct (stop_heartbeat_loop w1) as [[[]|e] w2]; cbn [fst snd] in *.
  - split; [exact Hclr | reflexivity].
  - split; [exact Hclr |]. intros H. specialize (Hret H). discriminate.
Qed.

(** X14. Each switch is idempotent: a second [start_heartbeat_loop]
    right after a first one changes nothing and starts no thread, and a
    second [stop_heartbeat_loop] right after a first one changes nothing
    and joins nothing. *)
Theorem switches_idempotent w :
  start_heartbeat_loop (snd (start_heartbeat_loop w))
  = (Ok tt, snd (start_heartbeat_loop w)) /\
  stop_heartbeat_loop (snd (stop_heartbeat_loop w))
  = (Ok tt, snd (stop_heartbeat_loop w)).
Proof.
  split.
  - apply start_when_running, start_sets_running.
  - apply stop_when_stopped, stop_clears_running.
Qed.

Lemma keeps_client_loop_try : keeps_client (loop_try rt).
Proof.
  intros w Hw. unfold loop_try, try_except.
  assert (Hhb : switch_step w (snd ((let* _ := heartbeat rt ∅ in ret tt) w))).
  { unfold bind, ret. pose proof (heartbeat_keeps_client rt ∅ w Hw) as H.
    cbn zeta in H. destruct (heartbeat rt ∅ w) as [[v|e] w1]; exact H. }
  destruct ((let* _ := heartbeat rt ∅ in ret tt) w) as [[[]|e] w1]; cbn [snd] in *;
    [exact Hhb |].
  destruct (is_Exception e); [| exact Hhb].
  eapply switch_step_trans; [exact Hhb |].
  apply switch_step_refl; reflexivity.
Qed.

(** A stop request outlasts whatever one attempt of a hook-free client
    does. *)
Lemma stop_requested_step w w' :
  switch_step w w' -> stop_requested (client w) -> stop_requested (client w').
Proof.
  unfold switch_step, stop_requested.
  intros (_ & _ & [-> | [Hrun _]]) [Hr He]; [tauto | congruence].
Qed.

Lemma threads_set_pc t p w : threads (set_pc t p w) !! t = Some p.
Proof. unfold set_pc. cbn. apply lookup_insert_eq. Qed.

Lemma client_set_pc t p w : client (set_pc t p w) = client w.
Proof. reflexivity. Qed.

(** A thread at the test of a stopped loop ends. *)
Lemma loop_step_test_stopped t w :
  _running (client w) = false ->
  threads w !! t = Some AtTest ->
  loop_step rt t w = set_pc t Dead w.
Proof. intros Hrun Hpc. unfold loop_step. rewrite Hpc, Hrun. reflexivity. Qed.

(** A thread at the wait goes back to the test at once when the event
    is set, whatever the interval is. *)
Lemma loop_step_wait_set t w :
  _stop_event (client w) = true ->
  threads w !! t = Some AtWait ->
  loop_step rt t w = set_pc t AtTest w.
Proof.
  intros Hev Hpc. unfold loop_step. rewrite Hpc.
  unfold as_thread, loop_wait, Event_wait. unfold_monad. cbn. rewrite Hev.
  destruct w; reflexivity.
Qed.

Lemma loop_step_dead t w :
  threads w !! t = Some Dead -> loop_step rt t w = w.
Proof. intros Hpc. unfold loop_step. rewrite Hpc. reflexivity. Qed.

(** X15. Once the loop has been told to stop (flag down, event set), a
    loop thread of a client without hooks ends within three of its own
    steps wherever it stands: the wait returns at once whatever the
    heartbeat interval is, and the test fails. *)
Theorem stopped_loop_thread_ends t p w :
  hooks_absent (client w) ->
  stop_requested (client w) ->
  threads w !! t = Some p ->
  threads (run rt [Step t; Step t; Step t] w) !! t = Some Dead.
Proof.
  intros Hhooks Hstop Hpc. unfold run. cbn [fold_left act].
  assert (Hdead : forall w0, threads w0 !! t = Some Dead ->
            threads (loop_step rt t w0) !! t = Some Dead).
  { intros w0 Hp. rewrite loop_step_dead; assumption. }
  assert (Htest : forall w0, stop_requested (client w0) ->
            threads w0 !! t = Some AtTest ->
            threads (loop_step rt t w0) !! t = Some Dead).
  { intros w0 [Hr _] Hp. rewrite (loop_step_test_stopped t w0 Hr Hp).
    apply threads_set_pc. }
  assert (Hwait : forall w0, stop_requested (client w0) ->
            threads w0 !! t = Some AtWait ->
            threads (loop_step rt t (loop_step rt t w0)) !! t = Some Dead).
  { intros w0 Hs Hp. pose proof Hs as [_ He].
    rewrite (loop_step_wait_set t w0 He Hp).
    apply Htest; [exact Hs | apply threads_set_pc]. }
  destruct p.
  - auto.
  - assert (Hstep : stop_requested (client (loop_step rt t w)) /\
                    (threads (loop_step rt t w) !! t = Some AtWait \/
                     threads (loop_step rt t w) !! t = Some Dead)).
    { unfold loop_step. rewrite Hpc.
      assert (Hs : switch_step w (snd (as_thread t (loop_try rt) w))).
      { unfold as_thread.
        pose proof (keeps_client_loop_try
                      (mkWorld (client w) t (threads w) (next_tid w) (net w)
                               (probes w) (log w)) Hhooks) as H.
        destruct (loop_try rt _) as [r w1]. exact H. }
      pose proof (stop_requested_step _ _ Hs Hstop) as Hs'.
      destruct (as_thread t (loop_try rt) w) as [[[]|e] w1]; cbn [snd] in *;
        (split; [exact Hs' |]); [left | right]; apply threads_set_pc. }
    destruct Hstep as [Hs [Hp|Hp]]; auto.
  - auto.
  - auto.
Qed.

(** X16. An interval that is not a number ends the loop thread at its
    first wait on a clear event: the [TypeError] of the wait is raised
    outside the [try]. The client is untouched, so [_running] stays
    true, and a later [start_heartbeat_loop] does nothing: no loop is
    active and none is started until [stop_heartbeat_loop] is called. *)
Theorem loop_thread_dies_on_bad_interval t w :
  threads w !! t = Some AtWait ->
  _stop_event (client w) = false ->
  _running (client w) = true ->
  match heartbeat_interval (client w) with
  | PStr _ | PList _ | PDict _ | PDatetime _ => True
  | _ => False
  end ->
  let w' := loop_step rt t w in
  threads w' !! t = Some Dead /\
  client w' = client w /\
  log w' = log w /\
  start_heartbeat_loop w' = (Ok tt, w').
Proof.
  intros Hpc Hev Hrun Hint. cbn zeta.
  assert (Heq : loop_step rt t w = set_pc t Dead w).
  { unfold loop_step. rewrite Hpc.
    unfold as_thread, loop_wait, Event_wait. unfold_monad. cbn. rewrite Hev.
    destruct (heartbeat_interval (client w)); try contradiction;
      destruct w; reflexivity. }
  rewrite Heq. repeat split.
  - apply threads_set_pc.
  - apply start_when_running. exact Hrun.
Qed.



(** X18. A loop started on a client that has no identity sends nothing:
    every pass fails on the precondition, is reported, and leaves the
    server's answers, the requests sent and the client as they were. *)
Theorem unregistered_loop_sends_nothing n : forall w,
  identity_absent (client w) = true ->
  _running (client w) = true ->
  interval_ok rt (heartbeat_interval (client w)) = true ->
  exists w', _heartbeat_loop rt n w = (Ok StillLooping, w') /\
    client w' = client w /\ net w' = net w /\ posts w' = posts w /\
    failures_logged w' = (failures_logged w + n)%nat.
Proof.
  induction n as [|n IH]; intros w Hid Hrun Hint.
  - exists w. cbn. rewrite Nat.add_0_r. auto.
  - assert (Htry : loop_try rt w
                   = (Ok tt, mkWorld (client w) (current_thread w) (threads w) (next_tid w)
                               (net w) (probes w)
                               (EvPrint "Heartbeat failed: "
                                  (ShownExn (RuntimeError "Service not registered"))
                                  :: log w))).
    { unfold loop_try, try_except, heartbeat. unfold bind at 1. unfold bind at 1.
      unfold get_client at 1. unfold identity_absent in Hid. rewrite Hid. reflexivity. }
    match type of Htry with _ = (_, ?w1) => set (w1' := w1) in * end.
    destruct (loop_wait_returns rt w1' Hint)
      as (b & w2 & Hwait & (Hc2 & _ & _ & _ & Hfl2) & Hnet2 & Hposts2).
    destruct (IH w2) as (w' & Hloop & Hc' & Hn' & Hp' & Hf').
    + rewrite Hc2. exact Hid.
    + rewrite Hc2. exact Hrun.
    + rewrite Hc2. exact Hint.
    + exists w'. split.
      * cbn [_heartbeat_loop]. unfold bind at 1, get_client at 1. rewrite Hrun.
        unfold bind at 1. rewrite Htry. unfold bind at 1. rewrite Hwait. exact Hloop.
      * rewrite Hc', Hn', Hp', Hf', Hc2, Hnet2, Hposts2, Hfl2.
        repeat split; try reflexivity.
        unfold failures_logged, w1'. cbn. lia.
Qed.

(** X19. The URL of a new client: a non-empty URL given to the
    constructor is used as it is; an empty or missing one gives way to
    the environment variable [SERVICE_REGISTRY_URL], and to the
    in-cluster address when that is not set. The client starts with no
    identity, a 30 second interval, an empty token, the loop stopped and
    no hook. *)
Theorem new_client_defaults url caps res perf :
  let c := ServiceRegistryClient_init rt url caps res perf in
  (forall u, url = Some u -> u <> "" -> server_url c = u) /\
  (url = None \/ url = Some "" ->
   server_url c = default default_server_url (getenv rt "SERVICE_REGISTRY_URL")) /\
  service_id c = PNone /\ heartbeat_interval c = PInt 30 /\ token c = PStr "" /\
  _running c = false /\ _thread c = None /\ _stop_event c = false /\
  hooks_absent c.
Proof.
  cbn zeta. unfold hooks_absent. repeat split.
  - intros u -> Hne. cbn. apply String.eqb_neq in Hne. rewrite Hne. reflexivity.
  - intros [-> | ->]; reflexivity.
Qed.

End FurtherLoop.

(** * The further properties on sample worlds *)

Lemma transport_errors_propagate_witness :
  let w := new_world registered_client [NetResp 503 None] in
  fst (register patched_runtime "text_to_image" "1.0.0" ∅ w) = Raise (HTTPError 503) /\
  fst (heartbeat patched_runtime ∅ w) = Raise (HTTPError 503) /\
  client (snd (heartbeat patched_runtime ∅ w)) = registered_client /\
  fst (shutdown "stopping" w) = Raise (HTTPError 503).
Proof.
  intros w.
  edestruct (transport_errors_propagate patched_runtime "text_to_image" "1.0.0" ∅ ∅
               "stopping" w (NetResp 503 None) [] (HTTPError 503))
    as (Hreg & Hhb & Hsh).
  - reflexivity.
  - reflexivity.
  - rewrite Hreg by (lazy; reflexivity).
    destruct Hhb as (Hh1 & Hh2 & _); [reflexivity | lazy; reflexivity |].
    rewrite Hsh by reflexivity.
    repeat split; try reflexivity; assumption.
Defined.

Lemma register_stores_before_failing_witness :
  let w := new_world fresh_client
             [NetResp 200 (Some (ok_body (PDict (list_to_map
                                   [("service_id", PStr "svc-9")]))))] in
  fst (register host_runtime "text_to_image" "1.0.0" ∅ w)
  = Raise (KeyError "heartbeat_interval") /\
  service_id (client (snd (register host_runtime "text_to_image" "1.0.0" ∅ w)))
  = PStr "svc-9" /\
  heartbeat_interval (client (snd (register host_runtime "text_to_image" "1.0.0" ∅ w)))
  = PInt 30 /\
  token (client (snd (register host_runtime "text_to_image" "1.0.0" ∅ w))) = PStr "".
Proof.
  intros w.
  eapply (register_stores_before_failing host_runtime "text_to_image" "1.0.0" ∅ w _ 200
            (list_to_map [("code", PInt 0);
                          ("data", PDict (list_to_map [("service_id", PStr "svc-9")]))])
            (list_to_map [("service_id", PStr "svc-9")]) (PStr "svc-9") []).
  - lazy. reflexivity.
  - reflexivity.
  - lia.
  - reflexivity.
  - reflexivity.
  - reflexivity.
  - reflexivity.
Defined.

Lemma register_unknown_keyword_witness :
  let w := new_world fresh_client [NetResp 200 (Some (ok_body (PDict identity_svc1)))] in
  exists msg,
    register host_runtime "text_to_image" "1.0.0" {[ "region" := PStr "eu" ]} w
    = (Raise (TypeError msg), w).
Proof.
  intros w.
  apply (register_unknown_keyword host_runtime "text_to_image" "1.0.0"
           {[ "region" := PStr "eu" ]} "region" (PStr "eu") w); reflexivity.
Defined.

Lemma register_request_addresses_witness :
  let kwargs : gmap string py :=
    list_to_map [("hostname", PStr "gpu-7"); ("ip_address", PStr "192.168.1.7")] in
  exists req,
    fst (RegisterRequest_new host_runtime "text_to_image" "1.0.0"
           ServiceCapabilities_default ResourceSpec_default PerformanceSpec_default
           kwargs (new_world fresh_client [])) = Ok req /\
    rr_hostname req = PStr "gpu-7" /\ rr_ip_address req = PStr "192.168.1.7" /\
    rr_port req = PInt 8080.
Proof.
  intros kwargs.
  destruct (register_request_addresses host_runtime "text_to_image" "1.0.0" kwargs
              (new_world fresh_client [])) as (Hexp & _ & _).
  - reflexivity.
  - apply (Hexp "gpu-7" "192.168.1.7"); try reflexivity; discriminate.
Defined.

Lemma heartbeat_reads_three_counters_witness :
  let w := new_world registered_client [NetResp 200 (Some (ok_body (PDict ∅)))] in
  heartbeat patched_runtime {[ "queue_size" := PInt 3 ]} w
  = heartbeat patched_runtime
      (list_to_map [("queue_size", PInt 3); ("gpu_utilization", PInt 99)]) w.
Proof.
  intros w. apply heartbeat_reads_three_counters; reflexivity.
Defined.

Lemma heartbeat_request_fields_witness :
  let w := new_world registered_client [] in
  exists req, fst (heartbeat_request patched_runtime {[ "queue_size" := PInt 3 ]} w) = Ok req /\
    hr_service_id req = PStr "svc-1" /\ hr_token req = PStr "tok-1" /\
    hr_queue_size req = PInt 3 /\ hr_processed_count req = PInt 0 /\
    hr_error_count req = PInt 0 /\
    hr_timestamp req = PStr "2024-05-01T12:00:00".
Proof.
  intros w.
  destruct (fst (heartbeat_request patched_runtime {[ "queue_size" := PInt 3 ]} w))
    as [req|e] eqn:Hreq.
  - exists req. split; [reflexivity |].
    destruct (heartbeat_request_fields patched_runtime {[ "queue_size" := PInt 3 ]} w req Hreq)
      as (H1 & H2 & H3 & H4 & H5 & _ & _ & _ & _ & H10 & _).
    rewrite H1, H2, H3, H4, H5. injection H10 as <-.
    repeat split; reflexivity.
  - vm_compute in Hreq. discriminate Hreq.
Defined.

Lemma heartbeat_keeps_client_witness :
  let w := started_world [drain_answer] in
  let w' := snd (heartbeat patched_runtime ∅ w) in
  same_but_switches (client w) (client w') /\ threads w' = threads w /\
  (client w' = client w \/ (_running (client w) = true /\ stop_requested (client w'))).
Proof.
  intros w. apply (heartbeat_keeps_client patched_runtime ∅ w).
  split; reflexivity.
Defined.

Lemma config_update_dispatch_witness :
  let w := new_world registered_client [] in
  heartbeat_response patched_runtime
    {| status_code := 200; json_body := Some (PDict config_answer_body) |} w
  = (Ok (PDict (list_to_map
           [("config_update", PDict (list_to_map [("max_batch_size", PInt 2)]))])),
     mkWorld (client w) (current_thread w) (threads w) (next_tid w) (net w) (probes w)
       (EvPrint "Config update received: "
          (ShownPy (PDict (list_to_map [("max_batch_size", PInt 2)]))) :: log w)).
Proof.
  intros w.
  edestruct (config_update_dispatch patched_runtime 200 config_answer_body
               (list_to_map
                  [("config_update", PDict (list_to_map [("max_batch_size", PInt 2)]))])
               (PDict (list_to_map [("max_batch_size", PInt 2)])) w) as [Hnone _].
  - lia.
  - reflexivity.
  - reflexivity.
  - reflexivity.
  - reflexivity.
  - reflexivity.
  - apply Hnone. reflexivity.
Defined.

Lemma drain_from_another_thread_witness :
  let w := started_world [] in
  heartbeat_response patched_runtime
    {| status_code := 200; json_body := Some (PDict drain_answer_body) |} w
  = (Ok (PDict (list_to_map [("drain_requested", PBool true)])),
     mkWorld (set_stop_event true (set_running false (client w)))
       (current_thread w) (threads w) (next_tid w) (net w) (probes w)
       (EvJoin 1 5 :: EvPrint "Drain requested, shutting down gracefully..."
                        ShownNothing :: log w)).
Proof.
  intros w.
  edestruct (drain_from_another_thread patched_runtime 200 drain_answer_body
               (list_to_map [("drain_requested", PBool true)]) (PBool true) w)
    as [Hrun _].
  - lia.
  - reflexivity.
  - reflexivity.
  - reflexivity.
  - reflexivity.
  - reflexivity.
  - reflexivity.
  - apply (Hrun 1%nat); try reflexivity. discriminate.
Defined.

Lemma shutdown_sends_identity_witness :
  let w := new_world registered_client
             [NetResp 200 (Some (rejection_body (PStr "bye")))] in
  fst (shutdown "stopping" w) = Ok (PStr "bye") /\
  getitem (shutdown_body (client w) "stopping") "service_id" = Ok (PStr "svc-1") /\
  getitem (shutdown_body (client w) "stopping") "reason" = Ok (PStr "stopping") /\
  identity_absent (client (snd (shutdown "stopping" w))) = false.
Proof.
  intros w.
  destruct (shutdown_sends_identity "stopping" w 200
              (list_to_map [("code", PInt 1); ("data", PStr "bye")]) (PStr "bye") [])
    as (Heq & Hsid & Hreason & Hid).
  - reflexivity.
  - reflexivity.
  - lia.
  - reflexivity.
  - rewrite Heq. repeat split; assumption.
Defined.

Lemma stopped_loop_thread_ends_witness :
  let w := run host_runtime [CallStart; Step 1; CallStop] (new_world registered_client []) in
  threads w !! 1%nat = Some InTry /\
  threads (run host_runtime [Step 1; Step 1; Step 1] w) !! 1%nat = Some Dead.
Proof.
  intros w. split; [reflexivity |].
  apply (stopped_loop_thread_ends host_runtime 1 InTry w).
  - split; reflexivity.
  - split; reflexivity.
  - reflexivity.
Defined.

Lemma loop_thread_dies_on_bad_interval_witness :
  let w' := loop_step host_runtime 1 string_interval_world in
  threads w' !! 1%nat = Some Dead /\
  client w' = client string_interval_world /\
  log w' = log string_interval_world /\
  start_heartbeat_loop w' = (Ok tt, w').
Proof.
  apply (loop_thread_dies_on_bad_interval host_runtime 1 string_interval_world);
    first [reflexivity | exact I].
Defined.


Lemma unregistered_loop_sends_nothing_witness :
  let w := snd (start_heartbeat_loop
                  (new_world fresh_client [NetResp 200 (Some (ok_body (PDict ∅)))])) in
  exists w', _heartbeat_loop host_runtime 3 w = (Ok StillLooping, w') /\
    client w' = client w /\ net w' = net w /\ posts w' = posts w /\
    failures_logged w' = 3%nat.
Proof.
  intros w. apply (unregistered_loop_sends_nothing host_runtime 3 w); reflexivity.
Defined.
